(** * Audio emotion analyzer: the request-processing pipeline

    A shallow embedding of
    [server/src/modules/audio-analysis/audio_emotion_analyzer.py]:
    the [AudioEmotionAnalyzer] class (model lifecycle, feature extraction,
    prediction, result assembly) and the line protocol of [main].

    Python values that come from the request stream are JSON values;
    Python floats are IEEE binary64 numbers (Rocq's primitive floats);
    a raised exception is the text [str(e)] that an [except Exception as e]
    handler can observe; the analyzer object is threaded explicitly, because
    [initialize] mutates it field by field and may raise half way.
    The collaborators the script drives (json, pathlib, the file system,
    Keras, librosa) are the fields of the [Runtime] class; they are
    functions, so the files, the artefacts and a loaded model answer the
    same question the same way throughout a run.  That is an assumption
    about a run, not a property of the script: Keras draws fresh weights
    each time [Sequential] is called, so no statement below compares the
    networks, or the predictions, of two calls.

    The development has two layers.  The first gives each method as what
    it computes while the process can write its diagnostics and its
    responses: the lines printed to [sys.stderr] are left out there.  The
    second, [Process], puts the standard streams back: every
    [print(..., file=sys.stderr)], the response written to [sys.stdout],
    the reading of [sys.stdin], and the descriptors that decoding a clip
    may close.  The two agree as long as the streams stay open. *)

From Stdlib Require Import List String Ascii ZArith Bool Lia Floats DecimalString.
Import ListNotations.
Local Open Scope string_scope.
Local Open Scope list_scope.
Set Warnings "-register-all,-inexact-float".

(** ** Exceptions as data *)

Inductive result (A : Type) : Type :=
| Ok (a : A)
| Raise (msg : string).
Arguments Ok {A} a.
Arguments Raise {A} msg.

Definition bind {A B} (c : result A) (k : A -> result B) : result B :=
  match c with
  | Ok a => k a
  | Raise msg => Raise msg
  end.

Notation "x <- c ;; k" := (bind c (fun x => k))
  (at level 61, c at next level, right associativity).

Definition raised {A} (c : result A) : Prop := exists msg, c = Raise msg.

(** ** Python values *)

Module Py.

(** What [json.loads] builds: [None], [bool], [int], [float], [str], [list],
    [dict] (string keys, listed once each in insertion order).  One
    character of a [string] stands for one character of the Python [str]. *)
Inductive json : Type :=
| JNull
| JBool (b : bool)
| JInt (z : Z)
| JFloat (f : float)
| JStr (s : string)
| JArr (items : list json)
| JObj (members : list (string * json)).

Definition type_name (v : json) : string :=
  match v with
  | JNull => "NoneType"
  | JBool _ => "bool"
  | JInt _ => "int"
  | JFloat _ => "float"
  | JStr _ => "str"
  | JArr _ => "list"
  | JObj _ => "dict"
  end.

Definition quoted (s : string) : string := ("'" ++ s ++ "'")%string.

Definition decimal (n : nat) : string := NilEmpty.string_of_uint (Nat.to_uint n).

Fixpoint assoc (key : string) (d : list (string * json)) : option json :=
  match d with
  | [] => None
  | (k, v) :: rest => if String.eqb k key then Some v else assoc key rest
  end.

(** [obj.get(key, default)]: only a dict has the method. *)
Definition get (obj : json) (key : string) (default : json) : result json :=
  match obj with
  | JObj d => Ok (match assoc key d with Some v => v | None => default end)
  | _ => Raise (quoted (type_name obj) ++ " object has no attribute 'get'")%string
  end.

(** [d[key]] on a dict with a constant string key: [KeyError], whose [str]
    is the [repr] of the key. *)
Definition getitem (d : list (string * json)) (key : string) : result json :=
  match assoc key d with
  | Some v => Ok v
  | None => Raise (quoted key)
  end.

(** [v == 'literal'] *)
Definition str_eq (v : json) (lit : string) : bool :=
  match v with
  | JStr s => String.eqb s lit
  | _ => false
  end.

Fixpoint chars (s : string) : list string :=
  match s with
  | EmptyString => []
  | String c rest => String c EmptyString :: chars rest
  end.

(** [for x in v] / [enumerate(v)]: the items of a list, the characters of a
    str, the keys of a dict. *)
Definition iter (v : json) : result (list json) :=
  match v with
  | JArr items => Ok items
  | JStr s => Ok (map JStr (chars s))
  | JObj d => Ok (map (fun kv => JStr (fst kv)) d)
  | _ => Raise (quoted (type_name v) ++ " object is not iterable")%string
  end.

(** [len(v)] *)
Definition len (v : json) : result nat :=
  match v with
  | JArr items => Ok (List.length items)
  | JStr s => Ok (String.length s)
  | JObj d => Ok (List.length d)
  | _ => Raise ("object of type " ++ quoted (type_name v) ++ " has no len()")%string
  end.

(** [v[i]] with a non-negative integer index. *)
Definition index (v : json) (i : nat) : result json :=
  match v with
  | JArr items =>
      match nth_error items i with
      | Some x => Ok x
      | None => Raise "list index out of range"
      end
  | JStr s =>
      match nth_error (chars s) i with
      | Some c => Ok (JStr c)
      | None => Raise "string index out of range"
      end
  | JObj _ => Raise (decimal i)
  | _ => Raise (quoted (type_name v) ++ " object is not subscriptable")%string
  end.

(** *** Dictionaries keyed by labels

    [scores] is keyed by whatever the label sequence yields.  Lists and
    dicts are unhashable; the other values compare as Python compares them:
    [True == 1 == 1.0], floats by IEEE equality, and the one [nan] object
    that [json] hands out is found again by identity. *)

Definition hashable (k : json) : bool :=
  match k with
  | JArr _ | JObj _ => false
  | _ => true
  end.

(** [float == int], exactly: the float is finite and its value is [z]. *)
Definition float_eq_int (f : float) (z : Z) : bool :=
  match Prim2SF f with
  | S754_zero _ => Z.eqb z 0
  | S754_finite s m e =>
      let sign := if s then (-1)%Z else 1%Z in
      if (0 <=? e)%Z
      then Z.eqb z (sign * (Z.pos m * 2 ^ e))
      else Z.eqb (Z.pos m mod 2 ^ (- e)) 0 && Z.eqb z (sign * (Z.pos m / 2 ^ (- e)))
  | _ => false
  end.

Definition key_eq (a b : json) : bool :=
  match a, b with
  | JNull, JNull => true
  | JStr s, JStr t => String.eqb s t
  | JBool x, JBool y => Bool.eqb x y
  | JBool x, JInt z | JInt z, JBool x => Z.eqb z (if x then 1 else 0)
  | JBool x, JFloat f | JFloat f, JBool x => float_eq_int f (if x then 1 else 0)
  | JInt x, JInt y => Z.eqb x y
  | JInt z, JFloat f | JFloat f, JInt z => float_eq_int f z
  | JFloat f, JFloat g => PrimFloat.eqb f g || (PrimFloat.is_nan f && PrimFloat.is_nan g)
  | _, _ => false
  end.

Definition dict := list (json * float).

Fixpoint lookup (k : json) (d : dict) : option float :=
  match d with
  | [] => None
  | (k', v) :: rest => if key_eq k' k then Some v else lookup k rest
  end.

(** An assignment to a present key keeps the key and its position. *)
Fixpoint update (k : json) (v : float) (d : dict) : dict :=
  match d with
  | [] => [(k, v)]
  | (k', v') :: rest =>
      if key_eq k' k then (k', v) :: rest else (k', v') :: update k v rest
  end.

(** [d[k] = v] *)
Definition setitem (d : dict) (k : json) (v : float) : result dict :=
  if hashable k then Ok (update k v d)
  else Raise ("unhashable type: " ++ quoted (type_name k))%string.

End Py.
Export Py.

(** ** numpy *)

Module Np.

(** [np.argmax] of a one-dimensional float array, as numpy's scan runs: a
    later entry takes over only when it is not [<=] the running maximum, and
    the first [nan] met ends the scan as the maximum. *)
Fixpoint argmax_scan (mp : float) (max_ind i : nat) (ip : list float) : nat :=
  match ip with
  | [] => max_ind
  | x :: rest =>
      if negb (x <=? mp)%float
      then if PrimFloat.is_nan x then i else argmax_scan x i (S i) rest
      else argmax_scan mp max_ind (S i) rest
  end.

Definition argmax (a : list float) : result nat :=
  match a with
  | [] => Raise "attempt to get an argmax of an empty sequence"
  | x :: rest => Ok (if PrimFloat.is_nan x then 0 else argmax_scan x 0 1 rest)
  end.

(** [a[i]] *)
Definition item (a : list float) (i : nat) : result float :=
  match nth_error a i with
  | Some x => Ok x
  | None =>
      Raise ("index " ++ decimal i ++ " is out of bounds for axis 0 with size "
             ++ decimal (List.length a))%string
  end.

(** [np.pad(a, (0, n), 'constant')] *)
Definition pad (a : list float) (n : nat) : list float := a ++ repeat 0%float n.

End Np.

(** ** Records for the dict literals of the script *)

(** What librosa measures on a decoded clip: [np.mean(mfcc, axis=1)],
    [np.std(mfcc, axis=1)] and the three scalar means. *)
Record measures : Type := {
  mfcc_mean : list float;
  mfcc_std : list float;
  spectral_centroid : float;
  zero_crossing_rate : float;
  rms_energy : float
}.

Module Features.
Record t : Type := {
  features : list float;
  mfcc : list float;
  spectralCentroid : float;
  zeroCrossingRate : float;
  energy : float
}.
End Features.

Module Prediction.
Record t : Type := {
  emotion : json;
  confidence : float;
  scores : dict
}.
End Prediction.

Module Analysis.
Record summary : Type := {
  mfcc : list float;
  spectralCentroid : float;
  zeroCrossingRate : float;
  energy : float
}.
Record full : Type := {
  sessionId : json;
  timestamp : json;
  emotion : json;
  confidence : float;
  scores : dict;
  features : summary;
  voiceActivity : bool;
  duration : float
}.
(** The dict [analyze_audio] returns: the full result, or
    [{sessionId, timestamp, error}]. *)
Inductive t : Type :=
| Full (r : full)
| Degraded (session_id timestamp : json) (error : string).
End Analysis.

(** A layer of a [tf.keras.Sequential] stack. *)
Inductive layer : Type :=
| Dense (units : nat) (activation : string) (input_shape : option nat)
| Dropout (rate : float).

(** What [main] prints on [sys.stdout], one [print] each. *)
Inductive response : Type :=
| Initialized
| Analyzed (result : Analysis.t) (sessionId timestamp : json)
| Error (msg : string).

Inductive output : Type :=
| Ready
| Line (r : response).

(** ** The collaborators *)

Class Runtime : Type := {
  (** a loaded or freshly built Keras model *)
  keras_model : Type;
  (** [line.strip()] and [json.loads] *)
  strip : string -> string;
  json_loads : string -> result json;
  (** [str(v)] inside an f-string, for a value that is not a str *)
  py_repr : json -> string;
  (** [Path(a) / b], and the text of the [TypeError] of [Path(v)] when [v]
      is not a str *)
  path_join : string -> string -> string;
  path_type_error : json -> string;
  (** [model_file.exists()] *)
  path_exists : string -> result bool;
  (** [tf.keras.models.load_model(str(model_file))] *)
  load_model_file : string -> result keras_model;
  (** [tf.keras.Sequential([...])] and [model.compile(...)] *)
  Sequential : list layer -> result keras_model;
  compile : keras_model -> result unit;
  (** row 0 of [model.predict(np.array(x).reshape(1, -1), verbose=0)] *)
  model_predict : keras_model -> list float -> result (list float);
  (** [librosa.load(path, sr, duration=3.0)] followed by the MFCC, spectral
      centroid, zero-crossing and RMS computations and their numpy means *)
  librosa_measure : Z -> json -> result measures
}.

(** ** The analyzer *)

Section Analyzer.

Context {R : Runtime}.

Record AudioEmotionAnalyzer : Type := {
  model : option keras_model;
  emotion_labels : json;
  sample_rate : Z;
  model_path : json;
  model_type : json
}.

(** [AudioEmotionAnalyzer.__init__] *)
Definition new_analyzer : AudioEmotionAnalyzer :=
  {| model := None;
     emotion_labels := JArr [];
     sample_rate := 48000;
     model_path := JNull;
     model_type := JStr "fast" |}.

Definition set_model (self : AudioEmotionAnalyzer) (m : keras_model) : AudioEmotionAnalyzer :=
  {| model := Some m;
     emotion_labels := emotion_labels self;
     sample_rate := sample_rate self;
     model_path := model_path self;
     model_type := model_type self |}.

Definition default_model_path : json := JStr "./models/audio-emotion".
Definition default_model_type : json := JStr "fast".
Definition default_emotion_labels : json :=
  JArr (map JStr ["neutral"; "calm"; "happy"; "sad"; "angry"; "fearful"; "disgust"; "surprised"]).

(** The three assignments at the head of [initialize]. *)
Definition configure (self : AudioEmotionAnalyzer) (path type labels : json) : AudioEmotionAnalyzer :=
  {| model := model self;
     emotion_labels := labels;
     sample_rate := sample_rate self;
     model_path := path;
     model_type := type |}.

(** [str(v)], as an f-string formats [v]. *)
Definition py_str (v : json) : string :=
  match v with
  | JStr s => s
  | _ => py_repr v
  end.

Definition dummy_layers (fast : bool) (outputs : nat) : list layer :=
  if fast
  then [Dense 64 "relu" (Some 40); Dropout 0.3;
        Dense 32 "relu" None; Dropout 0.3;
        Dense outputs "softmax" None]
  else [Dense 128 "relu" (Some 40); Dropout 0.4;
        Dense 64 "relu" None; Dropout 0.4;
        Dense 32 "relu" None; Dropout 0.3;
        Dense outputs "softmax" None].

(** [create_dummy_model]: the analyzer it leaves behind, and whether it
    raised.  [self.model] is assigned before [compile] runs. *)
Definition create_dummy_model (self : AudioEmotionAnalyzer) : AudioEmotionAnalyzer * result unit :=
  match len (emotion_labels self) with
  | Raise msg => (self, Raise msg)
  | Ok outputs =>
      match Sequential (dummy_layers (str_eq (model_type self) "fast") outputs) with
      | Raise msg => (self, Raise msg)
      | Ok m => (set_model self m, compile m)
      end
  end.

(** [load_model] *)
Definition load_model (self : AudioEmotionAnalyzer) : AudioEmotionAnalyzer * result unit :=
  match model_path self with
  | JStr p =>
      let model_file := path_join p (py_str (model_type self) ++ "_model.h5")%string in
      match path_exists model_file with
      | Raise msg => (self, Raise msg)
      | Ok true =>
          match load_model_file model_file with
          | Ok m => (set_model self m, Ok tt)
          | Raise _ => create_dummy_model self
          end
      | Ok false => create_dummy_model self
      end
  | other => (self, Raise (path_type_error other))
  end.

(** [initialize] *)
Definition initialize (self : AudioEmotionAnalyzer) (config : json)
  : AudioEmotionAnalyzer * result unit :=
  match get config "modelPath" default_model_path with
  | Raise msg => (self, Raise msg)
  | Ok path =>
      match get config "modelType" default_model_type with
      | Raise msg => (configure self path (model_type self) (emotion_labels self), Raise msg)
      | Ok type =>
          match get config "emotionLabels" default_emotion_labels with
          | Raise msg => (configure self path type (emotion_labels self), Raise msg)
          | Ok labels => load_model (configure self path type labels)
          end
      end
  end.

Definition zero_features : Features.t :=
  {| Features.features := repeat 0%float 40;
     Features.mfcc := repeat 0%float 13;
     Features.spectralCentroid := 0%float;
     Features.zeroCrossingRate := 0%float;
     Features.energy := 0%float |}.

(** [np.concatenate([mfcc_mean, mfcc_std, [centroid, zcr, energy]])] *)
Definition concatenate (m : measures) : list float :=
  mfcc_mean m ++ mfcc_std m ++ [spectral_centroid m; zero_crossing_rate m; rms_energy m].

(** The pad-or-truncate step. *)
Definition fit40 (features : list float) : list float :=
  if Nat.ltb (List.length features) 40
  then Np.pad features (40 - List.length features)
  else firstn 40 features.

(** [extract_features] *)
Definition extract_features (self : AudioEmotionAnalyzer) (audio_path : json) : Features.t :=
  match librosa_measure (sample_rate self) audio_path with
  | Ok m =>
      {| Features.features := fit40 (concatenate m);
         Features.mfcc := mfcc_mean m;
         Features.spectralCentroid := spectral_centroid m;
         Features.zeroCrossingRate := zero_crossing_rate m;
         Features.energy := rms_energy m |}
  | Raise _ => zero_features
  end.

(** The loop [for i, label in enumerate(labels): scores[label] = float(probabilities[i])]. *)
Fixpoint fill_scores (probabilities : list float) (i : nat) (labels : list json) (scores : dict)
  : result dict :=
  match labels with
  | [] => Ok scores
  | label :: rest =>
      p <- Np.item probabilities i ;;
      scores' <- setitem scores label p ;;
      fill_scores probabilities (S i) rest scores'
  end.

(** The [try] block of [predict_emotion]. *)
Definition predict_try (self : AudioEmotionAnalyzer) (features : Features.t)
  : result Prediction.t :=
  probabilities <-
    match model self with
    | Some m => model_predict m (Features.features features)
    | None => Raise "'NoneType' object has no attribute 'predict'"
    end ;;
  labels <- iter (emotion_labels self) ;;
  scores <- fill_scores probabilities 0 labels [] ;;
  dominant_idx <- Np.argmax probabilities ;;
  dominant_emotion <- index (emotion_labels self) dominant_idx ;;
  confidence <- Np.item probabilities dominant_idx ;;
  Ok {| Prediction.emotion := dominant_emotion;
        Prediction.confidence := confidence;
        Prediction.scores := scores |}.

(** The dict comprehension [{label: 0.0 for label in labels}]. *)
Fixpoint zero_scores (labels : list json) (scores : dict) : result dict :=
  match labels with
  | [] => Ok scores
  | label :: rest =>
      scores' <- setitem scores label 0%float ;;
      zero_scores rest scores'
  end.

(** The [except] block of [predict_emotion]; what it raises is not caught
    there. *)
Definition predict_fallback (self : AudioEmotionAnalyzer) : result Prediction.t :=
  labels <- iter (emotion_labels self) ;;
  scores <- zero_scores labels [] ;;
  scores' <- setitem scores (JStr "neutral") 1%float ;;
  Ok {| Prediction.emotion := JStr "neutral";
        Prediction.confidence := 1%float;
        Prediction.scores := scores' |}.

(** [predict_emotion] *)
Definition predict_emotion (self : AudioEmotionAnalyzer) (features : Features.t)
  : result Prediction.t :=
  match predict_try self features with
  | Ok r => Ok r
  | Raise _ => predict_fallback self
  end.

(** [analyze_audio] *)
Definition analyze_audio (self : AudioEmotionAnalyzer) (audio_path session_id timestamp : json)
  : Analysis.t :=
  let features := extract_features self audio_path in
  match predict_emotion self features with
  | Ok emotion_result =>
      Analysis.Full
        {| Analysis.sessionId := session_id;
           Analysis.timestamp := timestamp;
           Analysis.emotion := Prediction.emotion emotion_result;
           Analysis.confidence := Prediction.confidence emotion_result;
           Analysis.scores := Prediction.scores emotion_result;
           Analysis.features :=
             {| Analysis.mfcc := Features.mfcc features;
                Analysis.spectralCentroid := Features.spectralCentroid features;
                Analysis.zeroCrossingRate := Features.zeroCrossingRate features;
                Analysis.energy := Features.energy features |};
           Analysis.voiceActivity := (0.01 <? Features.energy features)%float;
           Analysis.duration := 1%float |}
  | Raise msg => Analysis.Degraded session_id timestamp msg
  end.

(** ** The protocol loop *)

(** The [try] block of the loop body, up to the [response] it prints. *)
Definition handle (analyzer : AudioEmotionAnalyzer) (line : string)
  : AudioEmotionAnalyzer * result response :=
  match json_loads (strip line) with
  | Raise msg => (analyzer, Raise msg)
  | Ok (JObj request) =>
      let action := match assoc "action" request with Some a => a | None => JNull end in
      if str_eq action "init" then
        match getitem request "config" with
        | Raise msg => (analyzer, Raise msg)
        | Ok config =>
            match initialize analyzer config with
            | (analyzer', Ok _) => (analyzer', Ok Initialized)
            | (analyzer', Raise msg) => (analyzer', Raise msg)
            end
        end
      else if str_eq action "analyze" then
        (analyzer,
         audio_path <- getitem request "audioPath" ;;
         session_id <- getitem request "sessionId" ;;
         timestamp <- getitem request "timestamp" ;;
         Ok (Analyzed (analyze_audio analyzer audio_path session_id timestamp)
                      session_id timestamp))
      else (analyzer, Ok (Error ("Unknown action: " ++ py_str action)%string))
  | Ok request =>
      (analyzer, Raise (quoted (type_name request) ++ " object has no attribute 'get'")%string)
  end.

(** One turn of the loop: the [try] block, or the [except] block's error
    response.  [json.dumps] is total on the responses built here and prints
    no line break, so each turn is one line of [sys.stdout]. *)
Definition step (analyzer : AudioEmotionAnalyzer) (line : string)
  : AudioEmotionAnalyzer * response :=
  match handle analyzer line with
  | (analyzer', Ok r) => (analyzer', r)
  | (analyzer', Raise msg) => (analyzer', Error msg)
  end.

(** [for line in sys.stdin] *)
Fixpoint serve (analyzer : AudioEmotionAnalyzer) (stdin : list string)
  : AudioEmotionAnalyzer * list response :=
  match stdin with
  | [] => (analyzer, [])
  | line :: rest =>
      let (analyzer', r) := step analyzer line in
      let (final, rs) := serve analyzer' rest in
      (final, r :: rs)
  end.

(** [main]: the readiness line, then the responses. *)
Definition main (stdin : list string) : list output :=
  Ready :: map Line (snd (serve new_analyzer stdin)).

End Analyzer.


(** ** The process and its standard streams

    [librosa.load] hands an integer path to libsndfile as a file
    descriptor, and libsndfile closes it: an [audioPath] of 0, 1 or 2 costs
    the process its standard input, output or error.  Writing to a closed
    descriptor raises [OSError]; so does reading from one.  The exception
    handlers of the script print before they return, so what they raise is
    part of what the methods do. *)

Inductive descriptor : Type := Stdin | Stdout | Stderr.

(** Which of the three standard descriptors are still open. *)
Record streams : Type := {
  stdin_open : bool;
  stdout_open : bool;
  stderr_open : bool
}.

(** The process as the supervisor starts it. *)
Definition started : streams :=
  {| stdin_open := true; stdout_open := true; stderr_open := true |}.

(** What [librosa.load(path, ...)] does to the process besides returning
    or raising: whether it closes a standard descriptor. *)
Class Decoder : Type := {
  closes : json -> descriptor -> bool
}.

Section Process.

Context {R : Runtime} {D : Decoder}.

Definition bad_descriptor : string := "[Errno 9] Bad file descriptor".

(** [print(..., file=sys.stderr)] *)
Definition print_stderr (s : streams) : result unit :=
  if stderr_open s then Ok tt else Raise bad_descriptor.

(** [print(json.dumps(...))] followed by [sys.stdout.flush()] *)
Definition print_stdout (s : streams) : result unit :=
  if stdout_open s then Ok tt else Raise bad_descriptor.

(** The streams once [librosa.load] has had the path. *)
Definition after_load (audio_path : json) (s : streams) : streams :=
  {| stdin_open := stdin_open s && negb (closes audio_path Stdin);
     stdout_open := stdout_open s && negb (closes audio_path Stdout);
     stderr_open := stderr_open s && negb (closes audio_path Stderr) |}.

(** [extract_features], with the [print] of its [except] block. *)
Definition extract_features_io (self : AudioEmotionAnalyzer) (audio_path : json) (s : streams)
  : streams * result Features.t :=
  let s' := after_load audio_path s in
  match librosa_measure (sample_rate self) audio_path with
  | Ok m =>
      (s', Ok {| Features.features := fit40 (concatenate m);
                 Features.mfcc := mfcc_mean m;
                 Features.spectralCentroid := spectral_centroid m;
                 Features.zeroCrossingRate := zero_crossing_rate m;
                 Features.energy := rms_energy m |})
  | Raise _ =>
      (s', _ <- print_stderr s' ;; Ok zero_features)
  end.

(** [predict_emotion], with the [print] of its [except] block. *)
Definition predict_emotion_io (self : AudioEmotionAnalyzer) (features : Features.t) (s : streams)
  : result Prediction.t :=
  match predict_try self features with
  | Ok r => Ok r
  | Raise _ => _ <- print_stderr s ;; predict_fallback self
  end.

(** [analyze_audio], with the [print] of its [except] block. *)
Definition analyze_audio_io (self : AudioEmotionAnalyzer)
  (audio_path session_id timestamp : json) (s : streams) : streams * result Analysis.t :=
  let (s', extracted) := extract_features_io self audio_path s in
  match
    features <- extracted ;;
    emotion_result <- predict_emotion_io self features s' ;;
    Ok (Analysis.Full
          {| Analysis.sessionId := session_id;
             Analysis.timestamp := timestamp;
             Analysis.emotion := Prediction.emotion emotion_result;
             Analysis.confidence := Prediction.confidence emotion_result;
             Analysis.scores := Prediction.scores emotion_result;
             Analysis.features :=
               {| Analysis.mfcc := Features.mfcc features;
                  Analysis.spectralCentroid := Features.spectralCentroid features;
                  Analysis.zeroCrossingRate := Features.zeroCrossingRate features;
                  Analysis.energy := Features.energy features |};
             Analysis.voiceActivity := (0.01 <? Features.energy features)%float;
             Analysis.duration := 1%float |})
  with
  | Ok result => (s', Ok result)
  | Raise msg =>
      (s', _ <- print_stderr s' ;; Ok (Analysis.Degraded session_id timestamp msg))
  end.

(** [create_dummy_model], with its closing [print]. *)
Definition create_dummy_model_io (self : AudioEmotionAnalyzer) (s : streams)
  : AudioEmotionAnalyzer * result unit :=
  match len (emotion_labels self) with
  | Raise msg => (self, Raise msg)
  | Ok outputs =>
      match Sequential (dummy_layers (str_eq (model_type self) "fast") outputs) with
      | Raise msg => (self, Raise msg)
      | Ok m => (set_model self m, _ <- compile m ;; print_stderr s)
      end
  end.

(** [load_model], with its three [print]s: the one after a successful
    load sits inside the [try], so its failure lands in the [except] block,
    whose own [print] comes before [create_dummy_model]. *)
Definition load_model_io (self : AudioEmotionAnalyzer) (s : streams)
  : AudioEmotionAnalyzer * result unit :=
  match model_path self with
  | JStr p =>
      let model_file := path_join p (py_str (model_type self) ++ "_model.h5")%string in
      match path_exists model_file with
      | Raise msg => (self, Raise msg)
      | Ok true =>
          match load_model_file model_file with
          | Ok m =>
              match print_stderr s with
              | Ok _ => (set_model self m, Ok tt)
              | Raise _ =>
                  match print_stderr s with
                  | Ok _ => create_dummy_model_io (set_model self m) s
                  | Raise msg => (set_model self m, Raise msg)
                  end
              end
          | Raise _ =>
              match print_stderr s with
              | Ok _ => create_dummy_model_io self s
              | Raise msg => (self, Raise msg)
              end
          end
      | Ok false =>
          match print_stderr s with
          | Ok _ => create_dummy_model_io self s
          | Raise msg => (self, Raise msg)
          end
      end
  | other => (self, Raise (path_type_error other))
  end.

(** [initialize] over [load_model] with its [print]s. *)
Definition initialize_io (self : AudioEmotionAnalyzer) (config : json) (s : streams)
  : AudioEmotionAnalyzer * result unit :=
  match get config "modelPath" default_model_path with
  | Raise msg => (self, Raise msg)
  | Ok path =>
      match get config "modelType" default_model_type with
      | Raise msg => (configure self path (model_type self) (emotion_labels self), Raise msg)
      | Ok type =>
          match get config "emotionLabels" default_emotion_labels with
          | Raise msg => (configure self path type (emotion_labels self), Raise msg)
          | Ok labels => load_model_io (configure self path type labels) s
          end
      end
  end.

(** The [try] block of the loop body up to the [response] it is about to
    print. *)
Definition handle_io (analyzer : AudioEmotionAnalyzer) (s : streams) (line : string)
  : AudioEmotionAnalyzer * streams * result response :=
  match json_loads (strip line) with
  | Raise msg => (analyzer, s, Raise msg)
  | Ok (JObj request) =>
      let action := match assoc "action" request with Some a => a | None => JNull end in
      if str_eq action "init" then
        match getitem request "config" with
        | Raise msg => (analyzer, s, Raise msg)
        | Ok config =>
            match initialize_io analyzer config s with
            | (analyzer', Ok _) => (analyzer', s, Ok Initialized)
            | (analyzer', Raise msg) => (analyzer', s, Raise msg)
            end
        end
      else if str_eq action "analyze" then
        match getitem request "audioPath" with
        | Raise msg => (analyzer, s, Raise msg)
        | Ok audio_path =>
            match getitem request "sessionId" with
            | Raise msg => (analyzer, s, Raise msg)
            | Ok session_id =>
                match getitem request "timestamp" with
                | Raise msg => (analyzer, s, Raise msg)
                | Ok timestamp =>
                    let (s', analysed) :=
                      analyze_audio_io analyzer audio_path session_id timestamp s in
                    (analyzer, s',
                     result <- analysed ;; Ok (Analyzed result session_id timestamp))
                end
            end
        end
      else (analyzer, s, Ok (Error ("Unknown action: " ++ py_str action)%string))
  | Ok request =>
      (analyzer, s,
       Raise (quoted (type_name request) ++ " object has no attribute 'get'")%string)
  end.

(** One turn of the loop.  The response is printed inside the [try]
    block; when that raises, or anything before it, the [except] block
    prints the error object; when that raises too, the exception leaves
    [main] and nothing has been written: [None]. *)
Definition step_io (analyzer : AudioEmotionAnalyzer) (s : streams) (line : string)
  : AudioEmotionAnalyzer * streams * option response :=
  match handle_io analyzer s line with
  | (analyzer', s', Ok r) =>
      match print_stdout s' with
      | Ok _ => (analyzer', s', Some r)
      | Raise msg =>
          match print_stdout s' with
          | Ok _ => (analyzer', s', Some (Error msg))
          | Raise _ => (analyzer', s', None)
          end
      end
  | (analyzer', s', Raise msg) =>
      match print_stdout s' with
      | Ok _ => (analyzer', s', Some (Error msg))
      | Raise _ => (analyzer', s', None)
      end
  end.

(** [for line in sys.stdin]: each item is what the iteration yields, a
    decoded line or the exception of a line that cannot be decoded.  The
    iteration is outside the [try] block: an exception there, as on a
    closed descriptor 0, ends [main].  Requests come one at a time, so no
    later line is already buffered when a descriptor is closed. *)
Fixpoint serve_io (analyzer : AudioEmotionAnalyzer) (s : streams)
  (stdin : list (result string)) : list response :=
  match stdin with
  | [] => []
  | item :: rest =>
      if stdin_open s then
        match item with
        | Raise _ => []
        | Ok line =>
            match step_io analyzer s line with
            | (analyzer', s', Some r) => r :: serve_io analyzer' s' rest
            | (_, _, None) => []
            end
        end
      else []
  end.

(** [main] in a process started with its three streams open. *)
Definition main_io (stdin : list (result string)) : list output :=
  Ready :: map Line (serve_io new_analyzer started stdin).

End Process.
(** ** A concrete runtime

    Stand-ins for the collaborators, to run the analyzer on: a Keras model
    is the row it predicts for every input, or nothing when [predict]
    raises on the 40-wide input; the requests, the artefact on disk and the
    readable clips are tables. *)

Module Demo.

Definition net : Type := option (list float).

Record world : Type := {
  requests : list (string * json);
  on_disk : option net;
  clips : list (string * measures)
}.

Definition outputs (layers : list layer) : nat :=
  match last layers (Dropout 0) with
  | Dense units _ _ => units
  | Dropout _ => 0
  end.

Definition runtime (w : world) : Runtime :=
  {| keras_model := net;
     strip := fun line => line;
     json_loads := fun line =>
       match assoc line (requests w) with
       | Some request => Ok request
       | None => Raise "Expecting value: line 1 column 1 (char 0)"
       end;
     py_repr := fun v =>
       match v with
       | JNull => "None"
       | _ => ("<" ++ type_name v ++ ">")%string
       end;
     path_join := fun a b => (a ++ "/" ++ b)%string;
     path_type_error := fun v =>
       ("expected str, bytes or os.PathLike object, not " ++ type_name v)%string;
     path_exists := fun _ =>
       Ok (match on_disk w with Some _ => true | None => false end);
     load_model_file := fun _ =>
       match on_disk w with
       | Some m => Ok m
       | None => Raise "No file or directory found"
       end;
     Sequential := fun layers => Ok (Some (repeat 0.125%float (outputs layers)));
     compile := fun _ => Ok tt;
     model_predict := fun m _ =>
       match m with
       | Some row => Ok row
       | None => Raise "Input 0 of layer is incompatible with the layer"
       end;
     librosa_measure := fun _ path =>
       match path with
       | JStr p =>
           match find (fun kv => String.eqb (fst kv) p) (clips w) with
           | Some kv => Ok (snd kv)
           | None => Raise "No such file or directory"
           end
       | _ => Raise "Invalid file"
       end |}.

(** A quiet clip and a louder one, 13 MFCC means and deviations each. *)
Definition quiet : measures :=
  {| mfcc_mean := repeat 2%float 13;
     mfcc_std := repeat 0.5%float 13;
     spectral_centroid := 1500%float;
     zero_crossing_rate := 0.05%float;
     rms_energy := 0.01%float |}.

Definition loud : measures :=
  {| mfcc_mean := repeat 2%float 13;
     mfcc_std := repeat 0.5%float 13;
     spectral_centroid := 1500%float;
     zero_crossing_rate := 0.05%float;
     rms_energy := 0.0100001%float |}.

Definition init_request (config : json) : json :=
  JObj [("action", JStr "init"); ("config", config)].

Definition analyze_request (audio_path : string) : json :=
  JObj [("action", JStr "analyze"); ("audioPath", JStr audio_path);
        ("sessionId", JStr "s1"); ("timestamp", JInt 1700000000000)].

(** No artefact on disk; the lines of a short session. *)
Definition bare : world :=
  {| requests :=
       [("init {}", init_request (JObj []));
        ("init null", init_request JNull);
        ("init happy/sad", init_request (JObj [("emotionLabels", JArr [JStr "happy"; JStr "sad"])]));
        ("analyze quiet", analyze_request "quiet.wav");
        ("analyze loud", analyze_request "loud.wav");
        ("analyze missing", analyze_request "missing.wav");
        ("dance", JObj [("action", JStr "dance")])];
     on_disk := None;
     clips := [("quiet.wav", quiet); ("loud.wav", loud)] |}.

(** The same, with an artefact on disk that loads but rejects the 40-wide
    input. *)
Definition mismatched : world :=
  {| requests := requests bare;
     on_disk := Some None;
     clips := clips bare |}.

End Demo.

(** ** More sessions

    Lines that exercise the edges of the protocol and of the label
    handling, over the clips of [Demo.bare]. *)

Module Cases.

Definition analyze_without (key : string) : json :=
  JObj (filter (fun kv => negb (String.eqb (fst kv) key))
          [("action", JStr "analyze"); ("audioPath", JStr "quiet.wav");
           ("sessionId", JStr "s1"); ("timestamp", JInt 1700000000000)]).

Definition init_labels (labels : json) : json :=
  Demo.init_request (JObj [("emotionLabels", labels)]).

Definition lines : list (string * json) :=
  [("[1]", JArr [JInt 1]);
   ("{}", JObj []);
   ("init without config", JObj [("action", JStr "init")]);
   ("init path 5",
    Demo.init_request (JObj [("modelPath", JInt 5);
                             ("emotionLabels", JArr [JStr "calm"; JStr "sad"])]));
   ("init labels 5", init_labels (JInt 5));
   ("init labels nested", init_labels (JArr [JStr "calm"; JArr [JStr "sad"]]));
   ("init labels ab", init_labels (JStr "ab"));
   ("init labels a/a", init_labels (JArr [JStr "a"; JStr "a"]));
   ("init labels none", init_labels (JArr []));
   ("init labels neutral/happy", init_labels (JArr [JStr "neutral"; JStr "happy"]));
   ("analyze without audioPath", analyze_without "audioPath");
   ("analyze without sessionId", analyze_without "sessionId");
   ("analyze without timestamp", analyze_without "timestamp")]
  ++ Demo.requests Demo.bare.

(** No artefact on disk. *)
Definition plain : Demo.world :=
  {| Demo.requests := lines;
     Demo.on_disk := None;
     Demo.clips := Demo.clips Demo.bare |}.

(** An artefact on disk that loads and predicts [row] for every input. *)
Definition loaded (row : list float) : Demo.world :=
  {| Demo.requests := lines;
     Demo.on_disk := Some (Some row);
     Demo.clips := Demo.clips Demo.bare |}.

End Cases.

(** ** A decoder for the concrete runtime

    libsndfile as it treats the paths it is handed: an integer 0, 1 or 2 is
    a descriptor and is closed; anything else leaves the three standard
    descriptors alone. *)

Module Wire.

Definition decoder : Decoder :=
  {| closes := fun audio_path d =>
       match audio_path, d with
       | JInt 0, Stdin => true
       | JInt 1, Stdout => true
       | JInt 2, Stderr => true
       | _, _ => false
       end |}.

Definition analyze_descriptor (n : Z) : json :=
  JObj [("action", JStr "analyze"); ("audioPath", JInt n);
        ("sessionId", JStr "s1"); ("timestamp", JInt 1700000000000)].

Definition lines : list (string * json) :=
  [("analyze 0", analyze_descriptor 0);
   ("analyze 1", analyze_descriptor 1);
   ("analyze 2", analyze_descriptor 2);
   ("init labels calm/happy/sad",
    Cases.init_labels (JArr [JStr "calm"; JStr "happy"; JStr "sad"]))]
  ++ Cases.lines.

(** No artefact on disk. *)
Definition plain : Demo.world :=
  {| Demo.requests := lines;
     Demo.on_disk := None;
     Demo.clips := Demo.clips Demo.bare |}.

(** An artefact on disk that loads and predicts [row] for every input. *)
Definition loaded (row : list float) : Demo.world :=
  {| Demo.requests := lines;
     Demo.on_disk := Some (Some row);
     Demo.clips := Demo.clips Demo.bare |}.

End Wire.

(** ** Vocabulary of the statements *)


Definition not_nan (x : float) : Prop := PrimFloat.is_nan x = false.

(** How many entries of a dict a key reaches. *)
Definition entries (k : json) (d : dict) : nat :=
  List.length (filter (fun kv => key_eq (fst kv) k) d).

(** What the comprehension [{label: 0.0 for label in labels}] leaves in
    [scores] when the labels are strings. *)
Definition zeroed (labels : list string) (scores : dict) : dict :=
  fold_left (fun acc l => update (JStr l) 0%float acc) labels scores.

(** [emotion == argmax(scores)] with [confidence == scores[emotion]], ties
    broken by the lowest label index: no score exceeds [confidence], and a
    label whose score reaches it does not come before [emotion] in the
    label order. *)
Definition dominant (labels : list string) (scores : dict)
  (emotion : json) (confidence : float) : Prop :=
  lookup emotion scores = Some confidence /\
  (forall k v, In (k, v) scores -> (v <=? confidence)%float = true) /\
  (forall j l v,
     nth_error labels j = Some l ->
     lookup (JStr l) scores = Some v ->
     (confidence <=? v)%float = true ->
     exists i, i <= j /\ option_map JStr (nth_error labels i) = Some emotion).

Section Requests.

Context {R : Runtime}.

(** The line parses to a JSON object. *)
Definition parses_to (line : string) (request : list (string * json)) : Prop :=
  json_loads (strip line) = Ok (JObj request).

(** The line is an [init] command. *)
Definition init_line (line : string) : Prop :=
  exists request, parses_to line request /\ assoc "action" request = Some (JStr "init").

(** The line is a complete [analyze] command. *)
Definition analyze_line (line : string) (audio_path session_id timestamp : json) : Prop :=
  exists request,
    parses_to line request /\
    assoc "action" request = Some (JStr "analyze") /\
    assoc "audioPath" request = Some audio_path /\
    assoc "sessionId" request = Some session_id /\
    assoc "timestamp" request = Some timestamp.


(** [config.get(key, default)] on a config object. *)
Definition setting (members : list (string * json)) (key : string) (default : json) : json :=
  match assoc key members with
  | Some v => v
  | None => default
  end.

End Requests.



Section Tame.

Context {R : Runtime} {D : Decoder}.

(** Decoding the path closes none of the standard descriptors. *)
Definition harmless (audio_path : json) : Prop :=
  forall d, closes audio_path d = false.

(** The line does not make the decoder close a standard descriptor: it is
    no complete [analyze] command, or its audio path is harmless. *)
Definition tame (line : string) : Prop :=
  forall audio_path session_id timestamp,
    analyze_line line audio_path session_id timestamp -> harmless audio_path.

(** The line leaves the loop its input and its output: it is no complete
    [analyze] command, or decoding its audio path closes neither standard
    input nor standard output. *)
Definition keeps_channel (line : string) : Prop :=
  forall audio_path session_id timestamp,
    analyze_line line audio_path session_id timestamp ->
    closes audio_path Stdin = false /\ closes audio_path Stdout = false.

End Tame.

(** ** Properties *)

(** *** Feature extraction *)

Section Extraction.

Context {R : Runtime}.

Lemma fit40_length (features : list float) : List.length (fit40 features) = 40.
Proof.
  unfold fit40, Np.pad.
  destruct (Nat.ltb (List.length features) 40) eqn:E.
  - apply Nat.ltb_lt in E. rewrite length_app, repeat_length. lia.
  - apply Nat.ltb_ge in E. rewrite length_firstn. lia.
Qed.

(** Without the streams: [extract_features] yields a 40-long feature list.
    When the librosa measurements succeed it is the concatenation of the
    MFCC means, the MFCC deviations and centroid, zero-crossing rate,
    energy, padded with trailing zeros to 40 or cut to its first 40; with
    13 means and 13 deviations that is the 29 raw values followed by 11
    zeros.  When they raise, it is the zero record. *)
Lemma extract_features_shape (self : AudioEmotionAnalyzer) (audio_path : json) :
  let r := extract_features self audio_path in
  List.length (Features.features r) = 40 /\
  (forall m,
     librosa_measure (sample_rate self) audio_path = Ok m ->
     let raw := mfcc_mean m ++ mfcc_std m
                ++ [spectral_centroid m; zero_crossing_rate m; rms_energy m] in
     (List.length raw <= 40 ->
      Features.features r = raw ++ repeat 0%float (40 - List.length raw)) /\
     (40 <= List.length raw -> Features.features r = firstn 40 raw) /\
     (List.length (mfcc_mean m) = 13 -> List.length (mfcc_std m) = 13 ->
      List.length raw = 29 /\ Features.features r = raw ++ repeat 0%float 11) /\
     Features.mfcc r = mfcc_mean m /\
     Features.spectralCentroid r = spectral_centroid m /\
     Features.zeroCrossingRate r = zero_crossing_rate m /\
     Features.energy r = rms_energy m) /\
  (raised (librosa_measure (sample_rate self) audio_path) ->
   Features.features r = repeat 0%float 40 /\
   Features.mfcc r = repeat 0%float 13 /\
   Features.spectralCentroid r = 0%float /\
   Features.zeroCrossingRate r = 0%float /\
   Features.energy r = 0%float).
Proof.
  cbv zeta. unfold extract_features. split; [|split].
  - destruct (librosa_measure _ _); cbn [Features.features zero_features].
    + apply fit40_length.
    + apply repeat_length.
  - intros m Hm. rewrite Hm. cbn [Features.features Features.mfcc
      Features.spectralCentroid Features.zeroCrossingRate Features.energy].
    unfold fit40, concatenate, Np.pad.
    set (raw := mfcc_mean m ++ mfcc_std m ++ _).
    assert (Hpad : List.length raw <= 40 ->
                   (if Nat.ltb (List.length raw) 40
                    then raw ++ repeat 0%float (40 - List.length raw)
                    else firstn 40 raw)
                   = raw ++ repeat 0%float (40 - List.length raw)).
    { intros Hle. destruct (Nat.ltb (List.length raw) 40) eqn:E; [reflexivity|].
      apply Nat.ltb_ge in E. assert (Heq : List.length raw = 40) by lia.
      rewrite Heq, Nat.sub_diag. cbn [repeat]. rewrite app_nil_r.
      rewrite <- Heq. apply firstn_all. }
    split; [exact Hpad|]. split.
    { intros Hge. destruct (Nat.ltb (List.length raw) 40) eqn:E; [|reflexivity].
      apply Nat.ltb_lt in E. lia. }
    split; [|repeat split].
    intros H13 H13'.
    assert (H29 : List.length raw = 29).
    { subst raw. rewrite !length_app. cbn [List.length]. lia. }
    split; [exact H29|]. rewrite Hpad by lia. rewrite H29. reflexivity.
  - intros [msg Hmsg]. rewrite Hmsg. cbn. repeat split.
Qed.

End Extraction.

(** *** The protocol loop *)

Section Loop.

Context {R : Runtime}.

Lemma serve_length (analyzer : AudioEmotionAnalyzer) (stdin : list string) :
  List.length (snd (serve analyzer stdin)) = List.length stdin.
Proof.
  revert analyzer. induction stdin as [|line rest IH]; intros analyzer; cbn.
  - reflexivity.
  - destruct (step analyzer line) as [analyzer' r].
    specialize (IH analyzer'). destruct (serve analyzer' rest) as [final rs].
    cbn in *. now rewrite IH.
Qed.

Lemma serve_cons (analyzer : AudioEmotionAnalyzer) (line : string) (rest : list string) :
  serve analyzer (line :: rest)
  = (fst (serve (fst (step analyzer line)) rest),
     snd (step analyzer line) :: snd (serve (fst (step analyzer line)) rest)).
Proof.
  cbn [serve]. destruct (step analyzer line) as [analyzer' r]. cbn [fst snd].
  destruct (serve analyzer' rest) as [final rs]. reflexivity.
Qed.


(** A line that is not an [init] command leaves the analyzer as it was. *)
Lemma handle_keeps_analyzer (analyzer : AudioEmotionAnalyzer) (line : string) :
  ~ init_line line -> fst (handle analyzer line) = analyzer.
Proof.
  intros Hno. unfold handle.
  destruct (json_loads (strip line)) as [request|msg] eqn:Hparse; [|reflexivity].
  destruct request as [| | | | | |request]; try reflexivity.
  destruct (assoc "action" request) as [action|] eqn:Haction; cbn.
  - destruct (str_eq action "init") eqn:Hinit.
    + exfalso. apply Hno. exists request. split; [exact Hparse|].
      destruct action; cbn in Hinit; try discriminate.
      apply String.eqb_eq in Hinit. now subst.
    + now destruct (str_eq action "analyze").
  - reflexivity.
Qed.

Lemma step_keeps_analyzer (analyzer : AudioEmotionAnalyzer) (line : string) :
  ~ init_line line -> fst (step analyzer line) = analyzer.
Proof.
  intros Hno. pose proof (handle_keeps_analyzer analyzer line Hno) as H.
  unfold step. destruct (handle analyzer line) as [analyzer' [r|msg]]; exact H.
Qed.

Lemma serve_keeps_analyzer (analyzer : AudioEmotionAnalyzer) (stdin : list string) :
  Forall (fun line => ~ init_line line) stdin -> fst (serve analyzer stdin) = analyzer.
Proof.
  induction 1 as [|line rest Hline _ IH].
  - reflexivity.
  - rewrite serve_cons. cbn [fst]. now rewrite step_keeps_analyzer.
Qed.

Lemma analyze_line_not_init (line : string) (audio_path session_id timestamp : json) :
  analyze_line line audio_path session_id timestamp -> ~ init_line line.
Proof.
  intros (request & Hparse & Haction & _) (request' & Hparse' & Haction').
  unfold parses_to in *. congruence.
Qed.

Lemma step_analyze (analyzer : AudioEmotionAnalyzer) (line : string)
  (audio_path session_id timestamp : json) :
  analyze_line line audio_path session_id timestamp ->
  step analyzer line
  = (analyzer,
     Analyzed (analyze_audio analyzer audio_path session_id timestamp) session_id timestamp).
Proof.
  intros (request & Hparse & Haction & Hpath & Hsid & Hts).
  unfold step, handle, parses_to, getitem in *.
  rewrite Hparse, Haction, Hpath, Hsid, Hts. reflexivity.
Qed.

End Loop.

(** *** Result assembly *)

Section Assembly.

Context {R : Runtime}.

(** C8.  In a full result, the reported energy is the extractor's, and
    [voiceActivity] holds exactly when it is strictly greater than 0.01:
    energy 0.01 gives [false] and energy 0.0100001 gives [true]. *)
Theorem voice_activity_threshold (self : AudioEmotionAnalyzer)
  (audio_path session_id timestamp : json) (r : Analysis.full) :
  analyze_audio self audio_path session_id timestamp = Analysis.Full r ->
  let energy := Analysis.energy (Analysis.features r) in
  energy = Features.energy (extract_features self audio_path) /\
  (Analysis.voiceActivity r = true <-> (0.01 <? energy)%float = true) /\
  (energy = 0.01%float -> Analysis.voiceActivity r = false) /\
  (energy = 0.0100001%float -> Analysis.voiceActivity r = true).
Proof.
  unfold analyze_audio. intros H. cbv zeta.
  destruct (predict_emotion self (extract_features self audio_path)) as [p|msg];
    [|discriminate].
  injection H as <-. cbn [Analysis.features Analysis.energy Analysis.voiceActivity].
  split; [reflexivity|]. split; [tauto|].
  split; intros ->; reflexivity.
Qed.



End Assembly.

(** C8 on the two clips of the demo world, whose energies are 0.01 and
    0.0100001. *)
Lemma voice_activity_threshold_witness :
  let R := Demo.runtime Demo.bare in
  exists quiet loud,
    analyze_audio new_analyzer (JStr "quiet.wav") (JStr "s1") (JInt 1) = Analysis.Full quiet /\
    analyze_audio new_analyzer (JStr "loud.wav") (JStr "s1") (JInt 2) = Analysis.Full loud /\
    Analysis.energy (Analysis.features quiet) = 0.01%float /\
    Analysis.voiceActivity quiet = false /\
    Analysis.energy (Analysis.features loud) = 0.0100001%float /\
    Analysis.voiceActivity loud = true.
Proof.
  cbv zeta.
  destruct (voice_activity_threshold (R := Demo.runtime Demo.bare)
              new_analyzer (JStr "quiet.wav") (JStr "s1") (JInt 1) _ eq_refl)
    as (_ & _ & Hquiet & _).
  destruct (voice_activity_threshold (R := Demo.runtime Demo.bare)
              new_analyzer (JStr "loud.wav") (JStr "s1") (JInt 2) _ eq_refl)
    as (_ & _ & _ & Hloud).
  eexists. eexists.
  split; [reflexivity|]. split; [reflexivity|].
  split; [reflexivity|]. split; [exact (Hquiet eq_refl)|].
  split; [reflexivity|exact (Hloud eq_refl)].
Defined.

(** *** Model lifecycle *)

Section Lifecycle.

Context {R : Runtime}.

Lemma create_dummy_model_settings (self : AudioEmotionAnalyzer) :
  let self' := fst (create_dummy_model self) in
  model_path self' = model_path self /\
  model_type self' = model_type self /\
  emotion_labels self' = emotion_labels self /\
  sample_rate self' = sample_rate self.
Proof.
  cbv zeta. unfold create_dummy_model.
  destruct (len (emotion_labels self)) as [outputs|msg]; [|now cbn].
  destruct (Sequential _) as [m|msg]; now cbn.
Qed.

(** [load_model] assigns [self.model] and nothing else. *)
Lemma load_model_settings (self : AudioEmotionAnalyzer) :
  let self' := fst (load_model self) in
  model_path self' = model_path self /\
  model_type self' = model_type self /\
  emotion_labels self' = emotion_labels self /\
  sample_rate self' = sample_rate self.
Proof.
  cbv zeta. unfold load_model.
  destruct (model_path self) eqn:Hpath; try now cbn.
  destruct (path_exists _) as [[|]|msg]; try now cbn.
  - destruct (load_model_file _) as [m|msg]; [now cbn|].
    rewrite <- Hpath. apply create_dummy_model_settings.
  - rewrite <- Hpath. apply create_dummy_model_settings.
Qed.



(** On a config object the three lookups cannot raise: the settings are
    stored and the rest is [load_model]. *)
Lemma initialize_object (self : AudioEmotionAnalyzer) (members : list (string * json)) :
  initialize self (JObj members)
  = load_model (configure self
                  (setting members "modelPath" default_model_path)
                  (setting members "modelType" default_model_type)
                  (setting members "emotionLabels" default_emotion_labels)).
Proof. reflexivity. Qed.





End Lifecycle.




(** *** Float order

    The comparisons of primitive floats are those of their IEEE
    specification; on floats that are not [nan] they form a total preorder. *)

Section FloatOrder.

Ltac sf_cases :=
  repeat match goal with
  | H : context [Z.compare ?x ?y] |- _ => destruct (Z.compare_spec x y); subst
  | |- context [Z.compare ?x ?y] => destruct (Z.compare_spec x y); subst
  | H : context [Pos.compare ?x ?y] |- _ => destruct (Pos.compare_spec x y); subst
  | |- context [Pos.compare ?x ?y] => destruct (Pos.compare_spec x y); subst
  end; cbn in *; try reflexivity; try discriminate; try lia.

Ltac sf_open :=
  unfold SFleb, SFltb, SFeqb, SFcompare in *;
  repeat match goal with
  | x : spec_float |- _ => destruct x as [[]|[]| |[] ? ?]
  end;
  cbn in *; try reflexivity; try discriminate;
  change (Pos.compare_cont Eq) with Pos.compare in *.

Lemma SFleb_ltb_trans (a b c : spec_float) :
  SFleb a b = true -> SFltb b c = true -> SFltb a c = true.
Proof. intros Hab Hbc. sf_open; sf_cases. Qed.

Lemma SFltb_leb (a b : spec_float) : SFltb a b = true -> SFleb a b = true.
Proof. intros H. sf_open; sf_cases. Qed.

Lemma SFltb_not_leb (a b : spec_float) : SFltb a b = true -> SFleb b a = false.
Proof. intros H. sf_open; sf_cases. Qed.

Lemma SFleb_total (a b : spec_float) :
  SFeqb a a = true -> SFeqb b b = true -> SFleb a b = false -> SFltb b a = true.
Proof. intros Ha Hb H. sf_open; sf_cases. Qed.

Lemma SFleb_refl (a : spec_float) : SFeqb a a = true -> SFleb a a = true.
Proof. intros Ha. sf_open; sf_cases. Qed.

Lemma not_nan_eqb (x : float) :
  PrimFloat.is_nan x = false -> SFeqb (Prim2SF x) (Prim2SF x) = true.
Proof.
  unfold PrimFloat.is_nan. rewrite eqb_spec.
  now destruct (SFeqb (Prim2SF x) (Prim2SF x)).
Qed.

Lemma leb_ltb_trans (x y z : float) :
  (x <=? y)%float = true -> (y <? z)%float = true -> (x <? z)%float = true.
Proof. rewrite leb_spec, !ltb_spec. apply SFleb_ltb_trans. Qed.

Lemma ltb_leb (x y : float) : (x <? y)%float = true -> (x <=? y)%float = true.
Proof. rewrite leb_spec, ltb_spec. apply SFltb_leb. Qed.

Lemma ltb_not_leb (x y : float) : (x <? y)%float = true -> (y <=? x)%float = false.
Proof. rewrite leb_spec, ltb_spec. apply SFltb_not_leb. Qed.

Lemma leb_total (x y : float) :
  PrimFloat.is_nan x = false -> PrimFloat.is_nan y = false ->
  (x <=? y)%float = false -> (y <? x)%float = true.
Proof.
  intros Hx Hy. rewrite leb_spec, ltb_spec.
  apply SFleb_total; now apply not_nan_eqb.
Qed.

Lemma leb_refl (x : float) : PrimFloat.is_nan x = false -> (x <=? x)%float = true.
Proof. intros Hx. rewrite leb_spec. now apply SFleb_refl, not_nan_eqb. Qed.

End FloatOrder.

(** *** [np.argmax] finds the first maximum *)

Section Argmax.

Lemma argmax_scan_first_max (rest : list float) :
  forall (seen : list float) (mp : float) (max_ind : nat),
    Forall not_nan (seen ++ rest) ->
    nth_error seen max_ind = Some mp ->
    (forall j x, nth_error seen j = Some x -> (x <=? mp)%float = true) ->
    (forall j x, j < max_ind -> nth_error seen j = Some x -> (x <? mp)%float = true) ->
    exists best,
      nth_error (seen ++ rest) (Np.argmax_scan mp max_ind (List.length seen) rest) = Some best /\
      (forall j x, nth_error (seen ++ rest) j = Some x -> (x <=? best)%float = true) /\
      (forall j x, j < Np.argmax_scan mp max_ind (List.length seen) rest ->
                   nth_error (seen ++ rest) j = Some x -> (x <? best)%float = true).
Proof.
  induction rest as [|x rest IH]; intros seen mp max_ind Hnan Hmp Hle Hlt.
  - rewrite app_nil_r. cbn. exists mp. auto.
  - assert (Hin : max_ind < List.length seen).
    { apply nth_error_Some. congruence. }
    assert (Hx : not_nan x).
    { rewrite Forall_forall in Hnan. apply Hnan, in_elt. }
    assert (Hm : not_nan mp).
    { rewrite Forall_forall in Hnan. apply Hnan, in_or_app. left.
      eapply nth_error_In, Hmp. }
    replace (seen ++ x :: rest) with ((seen ++ [x]) ++ rest) in *
      by now rewrite <- app_assoc.
    cbn [Np.argmax_scan].
    replace (S (List.length seen)) with (List.length (seen ++ [x]))
      by (rewrite length_app; cbn; lia).
    destruct (x <=? mp)%float eqn:Hcmp; cbn [negb].
    + apply IH; trivial.
      * rewrite nth_error_app1; trivial.
      * intros j y Hj. destruct (Nat.lt_ge_cases j (List.length seen)) as [Hjs|Hjs].
        -- rewrite nth_error_app1 in Hj by trivial. eauto.
        -- rewrite nth_error_app2 in Hj by trivial.
           destruct (j - List.length seen) as [|n]; cbn in Hj.
           ++ congruence.
           ++ now destruct n.
      * intros j y Hj Hy. rewrite nth_error_app1 in Hy by lia. eauto.
    + pose proof (leb_total x mp Hx Hm Hcmp) as Hgt.
      unfold not_nan in Hx. rewrite Hx.
      assert (Hbelow : forall j y, nth_error seen j = Some y -> (y <? x)%float = true).
      { intros j y Hj. eapply leb_ltb_trans; [eapply Hle, Hj|exact Hgt]. }
      apply IH; trivial.
      * rewrite nth_error_app2 by lia. now rewrite Nat.sub_diag.
      * intros j y Hj. destruct (Nat.lt_ge_cases j (List.length seen)) as [Hjs|Hjs].
        -- rewrite nth_error_app1 in Hj by trivial. eapply ltb_leb, Hbelow, Hj.
        -- rewrite nth_error_app2 in Hj by trivial.
           destruct (j - List.length seen) as [|n]; cbn in Hj.
           ++ injection Hj as <-. now apply leb_refl.
           ++ now destruct n.
      * intros j y Hj Hy. rewrite nth_error_app1 in Hy by lia. eauto.
Qed.

(** On an array without [nan], [np.argmax] returns the least index that
    holds the maximum. *)
Lemma argmax_first_max (a : list float) (k : nat) :
  Forall not_nan a ->
  Np.argmax a = Ok k ->
  exists best,
    nth_error a k = Some best /\
    (forall j x, nth_error a j = Some x -> (x <=? best)%float = true) /\
    (forall j x, j < k -> nth_error a j = Some x -> (x <? best)%float = true).
Proof.
  intros Hnan Hk. destruct a as [|x rest]; [discriminate|].
  cbn in Hk. injection Hk as <-.
  assert (Hx : not_nan x) by now inversion Hnan.
  unfold not_nan in Hx. rewrite Hx.
  apply (argmax_scan_first_max rest [x] x 0); trivial.
  - intros [|[|j]] y Hj; cbn in Hj; try discriminate.
    injection Hj as <-. now apply leb_refl.
  - intros j y Hj. lia.
Qed.

End Argmax.

(** *** Dictionaries under string keys *)

Section Dict.

Lemma key_eq_str_l (s : string) (k : json) : key_eq (JStr s) k = true <-> k = JStr s.
Proof.
  destruct k; cbn; try (split; [discriminate|congruence]).
  rewrite String.eqb_eq. split; congruence.
Qed.

Lemma key_eq_str_r (k : json) (s : string) : key_eq k (JStr s) = true <-> k = JStr s.
Proof.
  destruct k; cbn; try (split; [discriminate|congruence]).
  rewrite String.eqb_eq. split; congruence.
Qed.

Lemma key_eq_str_false (k : json) (s : string) : k <> JStr s -> key_eq k (JStr s) = false.
Proof.
  intros Hne. destruct (key_eq k (JStr s)) eqn:E; [|reflexivity].
  now apply key_eq_str_r in E.
Qed.

Lemma update_absent (s : string) (v : float) (d : dict) :
  ~ In (JStr s) (map fst d) -> update (JStr s) v d = d ++ [(JStr s, v)].
Proof.
  induction d as [|[k w] d IH]; intros Hno; cbn in *.
  - reflexivity.
  - rewrite key_eq_str_false by tauto. now rewrite IH by tauto.
Qed.

Lemma update_keys_present (s : string) (v : float) (d : dict) :
  In (JStr s) (map fst d) -> map fst (update (JStr s) v d) = map fst d.
Proof.
  induction d as [|[k w] d IH]; intros Hin; cbn in *.
  - contradiction.
  - destruct (key_eq k (JStr s)) eqn:E; cbn.
    + reflexivity.
    + f_equal. apply IH. destruct Hin as [->|Hin]; [|exact Hin].
      cbn in E. now rewrite String.eqb_refl in E.
Qed.

Lemma update_lookup_same (s : string) (v : float) (d : dict) :
  lookup (JStr s) (update (JStr s) v d) = Some v.
Proof.
  induction d as [|[k w] d IH]; cbn.
  - now rewrite String.eqb_refl.
  - destruct (key_eq k (JStr s)) eqn:E; cbn; now rewrite E.
Qed.

Lemma key_eq_str_l_false (s : string) (k : json) : k <> JStr s -> key_eq (JStr s) k = false.
Proof.
  intros Hne. destruct (key_eq (JStr s) k) eqn:E; [|reflexivity].
  now apply key_eq_str_l in E.
Qed.

Lemma update_lookup_other (k : json) (s : string) (v : float) (d : dict) :
  k <> JStr s -> lookup k (update (JStr s) v d) = lookup k d.
Proof.
  intros Hne. induction d as [|[k' w] d IH]; cbn [update lookup].
  - now rewrite key_eq_str_l_false.
  - destruct (key_eq k' (JStr s)) eqn:E; cbn [lookup].
    + apply key_eq_str_r in E. subst k'. now rewrite key_eq_str_l_false.
    + now rewrite IH.
Qed.

Lemma update_In (a : json) (b : float) (s : string) (v : float) (d : dict) :
  In (a, b) (update (JStr s) v d) -> (a = JStr s /\ b = v) \/ In (a, b) d.
Proof.
  induction d as [|[k w] d IH]; cbn.
  - intros [H|[]]. left. split; congruence.
  - destruct (key_eq k (JStr s)) eqn:E; cbn.
    + apply key_eq_str_r in E. subst k. intros [H|H]; [|tauto].
      left. split; congruence.
    + intros [H|H]; [tauto|]. destruct (IH H); tauto.
Qed.

Lemma update_keys (k : json) (s : string) (v : float) (d : dict) :
  In k (map fst (update (JStr s) v d)) <-> In k (map fst d) \/ k = JStr s.
Proof.
  destruct (in_dec (fun a b => string_dec a b) s
              (flat_map (fun k => match k with JStr t => [t] | _ => [] end) (map fst d)))
    as [Hin|Hno].
  - assert (Hin' : In (JStr s) (map fst d)).
    { apply in_flat_map in Hin as (k' & Hk' & Hs). destruct k'; cbn in Hs; try tauto.
      destruct Hs as [->|[]]. exact Hk'. }
    rewrite update_keys_present by trivial. split; [tauto|]. intros [H| ->]; trivial.
  - assert (Hno' : ~ In (JStr s) (map fst d)).
    { intros H. apply Hno, in_flat_map. exists (JStr s). split; [exact H|now left]. }
    rewrite update_absent by trivial. rewrite map_app, in_app_iff. cbn. intuition congruence.
Qed.

Lemma update_NoDup (s : string) (v : float) (d : dict) :
  NoDup (map fst d) -> NoDup (map fst (update (JStr s) v d)).
Proof.
  induction d as [|[k w] d IH]; cbn; intros Hd.
  - repeat constructor. tauto.
  - inversion Hd as [|? ? Hk Hd']; subst.
    destruct (key_eq k (JStr s)) eqn:E; cbn.
    + now constructor.
    + constructor; [|now apply IH].
      rewrite update_keys. intros [H| ->]; [tauto|].
      cbn in E. now rewrite String.eqb_refl in E.
Qed.

(** Under distinct keys a string key reaches one entry when it is a key,
    none otherwise. *)
Lemma entries_NoDup (s : string) (d : dict) :
  NoDup (map fst d) -> In (JStr s) (map fst d) -> entries (JStr s) d = 1.
Proof.
  unfold entries. induction d as [|[k w] d IH]; cbn; intros Hd Hin.
  - contradiction.
  - inversion Hd as [|? ? Hk Hd']; subst.
    destruct (key_eq k (JStr s)) eqn:E; cbn.
    + apply key_eq_str_r in E. subst k. f_equal.
      clear IH Hin Hd Hd'. induction d as [|[k' w'] d IH]; cbn in *; [reflexivity|].
      rewrite key_eq_str_false by tauto. apply IH. tauto.
    + apply IH; trivial. destruct Hin as [->|Hin]; [|exact Hin].
      cbn in E. now rewrite String.eqb_refl in E.
Qed.

Lemma lookup_In (k : json) (v : float) (d : dict) :
  lookup k d = Some v -> exists k', In (k', v) d.
Proof.
  induction d as [|[k' w] d IH]; cbn; [discriminate|].
  destruct (key_eq k' k).
  - intros [= ->]. eauto.
  - intros H. destruct (IH H) as [k'' Hk'']. eauto.
Qed.

End Dict.

(** *** The two score-building loops on string labels *)

Section ScoreLoops.

Lemma zero_scores_str (labels : list string) (scores : dict) :
  zero_scores (map JStr labels) scores = Ok (zeroed labels scores).
Proof.
  revert scores. induction labels as [|l labels IH]; intros scores; cbn.
  - reflexivity.
  - apply IH.
Qed.

Lemma zeroed_keys (labels : list string) (scores : dict) (k : json) :
  In k (map fst (zeroed labels scores))
  <-> In k (map fst scores) \/ exists l, In l labels /\ k = JStr l.
Proof.
  revert scores. induction labels as [|l labels IH]; intros scores; cbn.
  - split; [tauto|]. intros [H|(l & [] & _)]. exact H.
  - rewrite IH, update_keys. split.
    + intros [[H| ->]|(l' & Hl' & ->)]; eauto.
    + intros [H|(l' & [<-|Hl'] & ->)]; eauto.
Qed.

Lemma zeroed_NoDup (labels : list string) (scores : dict) :
  NoDup (map fst scores) -> NoDup (map fst (zeroed labels scores)).
Proof.
  revert scores. induction labels as [|l labels IH]; intros scores H; cbn.
  - exact H.
  - now apply IH, update_NoDup.
Qed.

Lemma zeroed_In (labels : list string) (scores : dict) (k : json) (v : float) :
  In (k, v) (zeroed labels scores) -> In (k, v) scores \/ v = 0%float.
Proof.
  revert scores. induction labels as [|l labels IH]; intros scores; cbn.
  - tauto.
  - intros H. destruct (IH _ H) as [H'|H']; [|tauto].
    destruct (update_In _ _ _ _ _ H'); tauto.
Qed.

Lemma zeroed_keeps_zero (labels : list string) (scores : dict) (k : json) :
  lookup k scores = Some 0%float -> lookup k (zeroed labels scores) = Some 0%float.
Proof.
  revert scores. induction labels as [|l labels IH]; intros scores H; cbn.
  - exact H.
  - apply IH. destruct (key_eq k (JStr l)) eqn:E.
    + apply key_eq_str_r in E. subst k. apply update_lookup_same.
    + rewrite update_lookup_other; [exact H|].
      intros ->. cbn in E. now rewrite String.eqb_refl in E.
Qed.

Lemma zeroed_lookup (labels : list string) (scores : dict) (l : string) :
  In l labels -> lookup (JStr l) (zeroed labels scores) = Some 0%float.
Proof.
  revert scores. induction labels as [|l' labels IH]; intros scores; cbn.
  - contradiction.
  - intros [->|Hin].
    + apply zeroed_keeps_zero, update_lookup_same.
    + now apply IH.
Qed.


Lemma skipn_cons_nth (p : list float) (i : nat) (v : float) :
  nth_error p i = Some v -> skipn i p = v :: skipn (S i) p.
Proof.
  revert p. induction i as [|i IH]; intros [|x p] H; cbn in H; try discriminate.
  - now injection H as ->.
  - apply (IH p H).
Qed.

(** With distinct labels the first loop appends one entry per label, in
    label order, and needs a probability for each. *)
Lemma fill_scores_distinct (probabilities : list float) (labels : list string) :
  forall (i : nat) (scores scores' : dict),
    NoDup labels ->
    (forall l, In l labels -> ~ In (JStr l) (map fst scores)) ->
    fill_scores probabilities i (map JStr labels) scores = Ok scores' ->
    scores' = scores ++ combine (map JStr labels) (skipn i probabilities) /\
    List.length labels <= List.length (skipn i probabilities).
Proof.
  induction labels as [|l labels IH]; intros i scores scores' Hd Hfresh H.
  - cbn in H. injection H as <-. cbn. rewrite app_nil_r. split; [reflexivity|lia].
  - inversion Hd as [|? ? Hl Hd']; subst.
    cbn [map fill_scores] in H. unfold Np.item in H.
    destruct (nth_error probabilities i) as [v|] eqn:Hv; [|discriminate].
    cbn [bind setitem hashable] in H.
    rewrite update_absent in H by (apply Hfresh; now left).
    apply IH in H; trivial.
    + destruct H as [-> Hlen]. rewrite (skipn_cons_nth _ _ _ Hv). cbn [map combine List.length].
      split; [now rewrite <- app_assoc|lia].
    + intros l' Hl'. rewrite map_app, in_app_iff. cbn.
      intros [H'|[H'|[]]].
      * revert H'. apply Hfresh. now right.
      * congruence.
Qed.

Lemma combine_In_nth (labels : list string) (vs : list float) (k : json) (v : float) :
  In (k, v) (combine (map JStr labels) vs) ->
  exists j l, nth_error labels j = Some l /\ k = JStr l /\ nth_error vs j = Some v.
Proof.
  revert vs. induction labels as [|l labels IH]; intros [|x vs]; cbn; try contradiction.
  intros [H|H].
  - injection H as <- <-. exists 0, l. now cbn.
  - destruct (IH _ H) as (j & l' & ? & ? & ?). exists (S j), l'. now cbn.
Qed.

Lemma combine_lookup (labels : list string) (vs : list float) (j : nat) (l : string) (v : float) :
  NoDup labels ->
  nth_error labels j = Some l ->
  nth_error vs j = Some v ->
  lookup (JStr l) (combine (map JStr labels) vs) = Some v.
Proof.
  revert vs j. induction labels as [|l' labels IH]; intros [|x vs] [|j] Hd Hl Hv;
    cbn in *; try discriminate.
  - injection Hl as ->. injection Hv as ->. now rewrite String.eqb_refl.
  - inversion Hd as [|? ? Hl' Hd']; subst.
    destruct (String.eqb_spec l' l) as [->|Hne].
    + destruct Hl'. eapply nth_error_In, Hl.
    + eapply IH; eauto.
Qed.


End ScoreLoops.

(** *** Prediction *)

Section Prediction.

Context {R : Runtime}.

Variable self : AudioEmotionAnalyzer.
Variable features : Features.t.
Variable labels : list string.
Hypothesis string_labels : emotion_labels self = JArr (map JStr labels).

(** The [except] block on string labels: it cannot raise. *)
Lemma predict_fallback_str :
  predict_fallback self
  = Ok {| Prediction.emotion := JStr "neutral";
          Prediction.confidence := 1%float;
          Prediction.scores := update (JStr "neutral") 1%float (zeroed labels []) |}.
Proof.
  unfold predict_fallback. rewrite string_labels. cbn [iter bind].
  now rewrite zero_scores_str.
Qed.

Lemma predict_emotion_fallback :
  raised (predict_try self features) ->
  predict_emotion self features = predict_fallback self.
Proof. intros [msg H]. unfold predict_emotion. now rewrite H. Qed.

(** What a [try] block that ran to its end has computed. *)
Lemma predict_try_ok (r : Prediction.t) :
  predict_try self features = Ok r ->
  exists m probabilities dominant_idx l,
    model self = Some m /\
    model_predict m (Features.features features) = Ok probabilities /\
    fill_scores probabilities 0 (map JStr labels) [] = Ok (Prediction.scores r) /\
    Np.argmax probabilities = Ok dominant_idx /\
    nth_error labels dominant_idx = Some l /\
    Prediction.emotion r = JStr l /\
    nth_error probabilities dominant_idx = Some (Prediction.confidence r).
Proof.
  unfold predict_try. rewrite string_labels.
  destruct (model self) as [m|]; [|discriminate].
  destruct (model_predict m (Features.features features)) as [p|] eqn:Hp; [|discriminate].
  cbn [bind iter index].
  destruct (fill_scores p 0 (map JStr labels) []) as [scores|] eqn:Hfill; [|discriminate].
  cbn [bind].
  destruct (Np.argmax p) as [idx|] eqn:Hidx; [|discriminate].
  cbn [bind]. rewrite nth_error_map.
  destruct (nth_error labels idx) as [l|] eqn:Hl; [|discriminate].
  cbn [option_map bind]. unfold Np.item.
  destruct (nth_error p idx) as [c|] eqn:Hc; [|discriminate].
  cbn [bind]. intros [= <-]. exists m, p, idx, l. cbn. auto 10.
Qed.

(** Without the streams: when the [try] block fails on string labels, the
    answer is emotion ["neutral"] with confidence 1.0 and a scores mapping
    that holds exactly one entry for each configured label, 0.0 for every
    label other than ["neutral"] and 1.0 for ["neutral"]; it has no entry
    besides the labels and ["neutral"]. *)
Lemma predict_fallback_scores :
  raised (predict_try self features) ->
  exists r,
    predict_emotion self features = Ok r /\
    Prediction.emotion r = JStr "neutral" /\
    Prediction.confidence r = 1%float /\
    (forall l, In l labels -> entries (JStr l) (Prediction.scores r) = 1) /\
    (forall l, In l labels -> l <> "neutral" ->
               lookup (JStr l) (Prediction.scores r) = Some 0%float) /\
    lookup (JStr "neutral") (Prediction.scores r) = Some 1%float /\
    entries (JStr "neutral") (Prediction.scores r) = 1 /\
    (forall k v, In (k, v) (Prediction.scores r) ->
                 k = JStr "neutral" \/ exists l, In l labels /\ k = JStr l).
Proof.
  intros Hraised. rewrite (predict_emotion_fallback Hraised), predict_fallback_str.
  eexists. split; [reflexivity|]. cbn [Prediction.emotion Prediction.confidence Prediction.scores].
  assert (Hnodup : NoDup (map fst (update (JStr "neutral") 1%float (zeroed labels [])))).
  { apply update_NoDup, zeroed_NoDup. constructor. }
  repeat split.
  - intros l Hl. apply entries_NoDup; [exact Hnodup|].
    apply update_keys. left. apply zeroed_keys. right. eauto.
  - intros l Hl Hne. rewrite update_lookup_other by congruence.
    now apply zeroed_lookup.
  - apply update_lookup_same.
  - apply entries_NoDup; [exact Hnodup|]. apply update_keys. now right.
  - intros k v Hin. assert (Hk : In k (map fst (update (JStr "neutral") 1%float (zeroed labels [])))).
    { apply in_map_iff. now exists (k, v). }
    apply update_keys in Hk as [Hk|Hk]; [|now left].
    apply zeroed_keys in Hk as [[]|Hk]. now right.
Qed.

Hypothesis distinct_labels : NoDup labels.

Lemma predict_try_scores (r : Prediction.t) :
  predict_try self features = Ok r ->
  exists m probabilities dominant_idx l,
    model self = Some m /\
    model_predict m (Features.features features) = Ok probabilities /\
    Prediction.scores r = combine (map JStr labels) probabilities /\
    List.length labels <= List.length probabilities /\
    Np.argmax probabilities = Ok dominant_idx /\
    nth_error labels dominant_idx = Some l /\
    Prediction.emotion r = JStr l /\
    nth_error probabilities dominant_idx = Some (Prediction.confidence r).
Proof.
  intros H. destruct (predict_try_ok r H) as (m & p & idx & l & Hm & Hp & Hfill & Hrest).
  apply fill_scores_distinct in Hfill as [Hscores Hlen]; trivial; [|now cbn].
  exists m, p, idx, l. cbn in *. auto 10.
Qed.




(** C6, as the code has it.  When the configured labels are distinct
    strings and the model's outputs hold no [nan], every result of
    [predict_emotion] has
    [confidence == scores[emotion]], no score above [confidence], and no
    label before [emotion] in the label order whose score reaches it. *)
Theorem prediction_is_dominant (r : Prediction.t) :
  (forall m probabilities,
     model self = Some m ->
     model_predict m (Features.features features) = Ok probabilities ->
     Forall not_nan probabilities) ->
  predict_emotion self features = Ok r ->
  dominant labels (Prediction.scores r) (Prediction.emotion r) (Prediction.confidence r).
Proof.
  intros Hnan. unfold predict_emotion.
  destruct (predict_try self features) as [r'|msg] eqn:Htry.
  - intros [= <-].
    destruct (predict_try_scores r' Htry)
      as (m & p & idx & l & Hm & Hp & Hscores & Hlen & Hidx & Hl & Hemotion & Hconf).
    specialize (Hnan m p Hm Hp).
    destruct (argmax_first_max p idx Hnan Hidx) as (best & Hbest & Hmax & Hfirst).
    assert (best = Prediction.confidence r') as -> by congruence.
    rewrite Hscores, Hemotion. split; [|split].
    + eapply combine_lookup; eauto.
    + intros k v Hin. apply combine_In_nth in Hin as (j & l' & _ & _ & Hv). eauto.
    + intros j l' v Hj Hlookup Htie.
      assert (Hjp : j < List.length p).
      { apply Nat.lt_le_trans with (List.length labels); [|exact Hlen].
        apply nth_error_Some. congruence. }
      destruct (nth_error p j) as [pj|] eqn:Hpj; [|now apply nth_error_None in Hpj; lia].
      rewrite (combine_lookup labels p j l' pj distinct_labels Hj Hpj) in Hlookup.
      injection Hlookup as ->.
      exists idx. split; [|now rewrite Hl].
      destruct (Nat.lt_ge_cases j idx) as [Hlt|Hge]; [|exact Hge].
      pose proof (ltb_not_leb _ _ (Hfirst j v Hlt Hpj)). congruence.
  - rewrite predict_fallback_str. intros [= <-].
    cbn [Prediction.emotion Prediction.confidence Prediction.scores].
    split; [|split].
    + apply update_lookup_same.
    + intros k v Hin. apply update_In in Hin as [[_ ->]|Hin]; [reflexivity|].
      apply zeroed_In in Hin as [[]| ->]. reflexivity.
    + intros j l v Hj Hlookup Htie.
      destruct (string_dec l "neutral") as [->|Hne].
      * exists j. split; [lia|]. now rewrite Hj.
      * rewrite update_lookup_other in Hlookup by congruence.
        rewrite zeroed_lookup in Hlookup by (eapply nth_error_In, Hj).
        injection Hlookup as <-. discriminate.
Qed.

End Prediction.

(** *** Prediction in the demo worlds *)



(** C6 with the labels calm, happy and sad and a loaded model that returns
    0.2, 0.7 and 0.7: happy and sad tie, and happy, the earlier label, is
    the emotion. *)
Lemma prediction_is_dominant_witness :
  let R := Demo.runtime (Wire.loaded [0.2; 0.7; 0.7]%float) in
  let self := fst (step new_analyzer "init labels calm/happy/sad") in
  emotion_labels self = JArr (map JStr ["calm"; "happy"; "sad"]) /\
  NoDup ["calm"; "happy"; "sad"] /\
  exists r,
    predict_emotion self zero_features = Ok r /\
    Prediction.emotion r = JStr "happy" /\
    Prediction.confidence r = 0.7%float /\
    Prediction.scores r
    = [(JStr "calm", 0.2%float); (JStr "happy", 0.7%float); (JStr "sad", 0.7%float)] /\
    dominant ["calm"; "happy"; "sad"]
      (Prediction.scores r) (Prediction.emotion r) (Prediction.confidence r).
Proof.
  cbv zeta.
  set (self := fst (step (R := Demo.runtime (Wire.loaded [0.2; 0.7; 0.7]%float))
                      new_analyzer "init labels calm/happy/sad")).
  assert (Hlabels : emotion_labels self = JArr (map JStr ["calm"; "happy"; "sad"]))
    by reflexivity.
  assert (Hdistinct : NoDup ["calm"; "happy"; "sad"]).
  { repeat constructor; cbn; intuition discriminate. }
  split; [exact Hlabels|]. split; [exact Hdistinct|].
  eexists. split; [reflexivity|]. split; [reflexivity|]. split; [reflexivity|].
  split; [reflexivity|].
  apply (prediction_is_dominant (R := Demo.runtime (Wire.loaded [0.2; 0.7; 0.7]%float))
           self zero_features ["calm"; "happy"; "sad"] Hlabels Hdistinct).
  - intros m p Hm Hp. cbv in Hm. injection Hm as <-.
    cbv in Hp. injection Hp as <-. repeat constructor.
  - reflexivity.
Defined.

(** ** Further properties of the protocol loop *)

Section ProtocolEdges.

Context {R : Runtime}.

Lemma step_object (analyzer : AudioEmotionAnalyzer) (line : string)
  (request : list (string * json)) :
  parses_to line request ->
  step analyzer line
  = let action := match assoc "action" request with Some a => a | None => JNull end in
    if str_eq action "init" then
      match assoc "config" request with
      | None => (analyzer, Error "'config'")
      | Some config =>
          (fst (initialize analyzer config),
           match snd (initialize analyzer config) with
           | Ok _ => Initialized
           | Raise msg => Error msg
           end)
      end
    else if str_eq action "analyze" then
      match assoc "audioPath" request with
      | None => (analyzer, Error "'audioPath'")
      | Some audio_path =>
          match assoc "sessionId" request with
          | None => (analyzer, Error "'sessionId'")
          | Some session_id =>
              match assoc "timestamp" request with
              | None => (analyzer, Error "'timestamp'")
              | Some timestamp =>
                  (analyzer,
                   Analyzed (analyze_audio analyzer audio_path session_id timestamp)
                            session_id timestamp)
              end
          end
      end
    else (analyzer, Error ("Unknown action: " ++ py_str action)%string).
Proof.
  intros Hparse. unfold step, handle, parses_to, getitem in *. rewrite Hparse. cbv zeta.
  destruct (str_eq _ "init").
  - destruct (assoc "config" request) as [config|]; [|reflexivity].
    destruct (initialize analyzer config) as [analyzer' [u|msg]]; reflexivity.
  - destruct (str_eq _ "analyze"); [|reflexivity].
    destruct (assoc "audioPath" request); [|reflexivity].
    destruct (assoc "sessionId" request); [|reflexivity].
    destruct (assoc "timestamp" request); reflexivity.
Qed.

Lemma str_eq_other (a lit : string) : a <> lit -> str_eq (JStr a) lit = false.
Proof. intros H. cbn. now apply String.eqb_neq. Qed.

(** X1.  An object whose action is a string other than ["init"] and
    ["analyze"] is answered by [{"error": "Unknown action: <action>"}], an
    object without an action by the same message over [str(None)]; the
    analyzer is left as it was. *)
Theorem unknown_action_response (analyzer : AudioEmotionAnalyzer) (line : string)
  (request : list (string * json)) :
  parses_to line request ->
  (forall action,
     assoc "action" request = Some (JStr action) ->
     action <> "init" -> action <> "analyze" ->
     step analyzer line = (analyzer, Error ("Unknown action: " ++ action)%string)) /\
  (assoc "action" request = None ->
   step analyzer line = (analyzer, Error ("Unknown action: " ++ py_repr JNull)%string)).
Proof.
  intros Hparse. rewrite (step_object analyzer line request Hparse). split.
  - intros action -> Hinit Hanalyze. cbv zeta.
    now rewrite !str_eq_other.
  - intros ->. reflexivity.
Qed.

(** X2.  A request that lacks a field its action needs is answered by the
    error object that quotes the first missing key, in the order the loop
    reads them: [config] for [init]; [audioPath], [sessionId], [timestamp]
    for [analyze].  Neither [initialize] nor [analyze_audio] has run: the
    analyzer is left as it was. *)
Theorem missing_field_response (analyzer : AudioEmotionAnalyzer) (line : string)
  (request : list (string * json)) :
  parses_to line request ->
  (assoc "action" request = Some (JStr "init") ->
   assoc "config" request = None ->
   step analyzer line = (analyzer, Error "'config'")) /\
  (assoc "action" request = Some (JStr "analyze") ->
   (assoc "audioPath" request = None ->
    step analyzer line = (analyzer, Error "'audioPath'")) /\
   (assoc "audioPath" request <> None -> assoc "sessionId" request = None ->
    step analyzer line = (analyzer, Error "'sessionId'")) /\
   (assoc "audioPath" request <> None -> assoc "sessionId" request <> None ->
    assoc "timestamp" request = None ->
    step analyzer line = (analyzer, Error "'timestamp'"))).
Proof.
  intros Hparse. rewrite (step_object analyzer line request Hparse). split.
  - intros -> ->. reflexivity.
  - intros ->. cbn. repeat split.
    + intros ->. reflexivity.
    + intros Hpath ->. now destruct (assoc "audioPath" request).
    + intros Hpath Hsid ->.
      destruct (assoc "audioPath" request); [|easy].
      now destruct (assoc "sessionId" request).
Qed.

(** X3.  A line that is not JSON is answered by the error object carrying
    the parser's message, and a line that is JSON but not an object (a
    list, a string, a number, [true], [null]) by
    ['<type>' object has no attribute 'get']; the analyzer is left as it
    was. *)
Theorem not_an_object_response (analyzer : AudioEmotionAnalyzer) (line : string) :
  (forall msg,
     json_loads (strip line) = Raise msg ->
     step analyzer line = (analyzer, Error msg)) /\
  (forall v,
     json_loads (strip line) = Ok v ->
     (forall members, v <> JObj members) ->
     step analyzer line
     = (analyzer, Error (quoted (type_name v) ++ " object has no attribute 'get'")%string)).
Proof.
  unfold step, handle. split.
  - intros msg ->. reflexivity.
  - intros v -> Hno. destruct v; try reflexivity. now destruct (Hno members).
Qed.

(** X4.  Only an [init] line can change the analyzer: a line that is not
    one leaves it as it was, and so does any stream without one. *)
Theorem only_init_changes_analyzer (analyzer : AudioEmotionAnalyzer) :
  (forall line, ~ init_line line -> fst (step analyzer line) = analyzer) /\
  (forall stdin,
     Forall (fun line => ~ init_line line) stdin ->
     fst (serve analyzer stdin) = analyzer).
Proof.
  split.
  - intros line. apply step_keeps_analyzer.
  - intros stdin. apply serve_keeps_analyzer.
Qed.

(** Without the streams: the response to a complete [analyze] request
    carries a result, full or degraded, and both echo the request's
    [sessionId] and [timestamp]. *)
Lemma analyze_response_echoes (analyzer : AudioEmotionAnalyzer) (line : string)
  (audio_path session_id timestamp : json) :
  analyze_line line audio_path session_id timestamp ->
  exists result,
    step analyzer line = (analyzer, Analyzed result session_id timestamp) /\
    match result with
    | Analysis.Full r =>
        Analysis.sessionId r = session_id /\ Analysis.timestamp r = timestamp
    | Analysis.Degraded sid ts _ => sid = session_id /\ ts = timestamp
    end.
Proof.
  intros Hline. rewrite (step_analyze analyzer line _ _ _ Hline).
  eexists. split; [reflexivity|]. unfold analyze_audio.
  destruct (predict_emotion _ _); now cbn.
Qed.

Lemma initialize_sample_rate (analyzer : AudioEmotionAnalyzer) (config : json) :
  sample_rate (fst (initialize analyzer config)) = sample_rate analyzer.
Proof.
  destruct config; try reflexivity.
  rewrite initialize_object.
  destruct (load_model_settings
              (configure analyzer
                 (setting members "modelPath" default_model_path)
                 (setting members "modelType" default_model_type)
                 (setting members "emotionLabels" default_emotion_labels)))
    as (_ & _ & _ & Hrate).
  rewrite Hrate. reflexivity.
Qed.

Lemma step_cases (analyzer : AudioEmotionAnalyzer) (line : string) :
  (fst (step analyzer line) = analyzer /\ snd (step analyzer line) <> Initialized) \/
  (exists config,
     fst (step analyzer line) = fst (initialize analyzer config) /\
     (snd (step analyzer line) = Initialized ->
      snd (initialize analyzer config) = Ok tt)).
Proof.
  destruct (json_loads (strip line)) as [v|msg] eqn:Hparse.
  - destruct v as [| | | | | |request];
      try (left; unfold step, handle; rewrite Hparse; now split).
    rewrite (step_object analyzer line request Hparse). cbv zeta.
    destruct (str_eq _ "init").
    + destruct (assoc "config" request) as [config|]; [|left; now split].
      right. exists config. cbn [fst snd]. split; [reflexivity|].
      destruct (snd (initialize analyzer config)) as [[]|msg]; [reflexivity|discriminate].
    + left. destruct (str_eq _ "analyze"); [|now split].
      destruct (assoc "audioPath" request); [|now split].
      destruct (assoc "sessionId" request); [|now split].
      destruct (assoc "timestamp" request); now split.
  - left. unfold step, handle. rewrite Hparse. now split.
Qed.

Lemma serve_sample_rate (analyzer : AudioEmotionAnalyzer) (stdin : list string) :
  sample_rate (fst (serve analyzer stdin)) = sample_rate analyzer.
Proof.
  revert analyzer. induction stdin as [|line rest IH]; intros analyzer.
  - reflexivity.
  - rewrite serve_cons. cbn [fst]. rewrite IH.
    destruct (step_cases analyzer line) as [[-> _]|(config & -> & _)].
    + reflexivity.
    + apply initialize_sample_rate.
Qed.

(** X6.  Nothing assigns [sample_rate] after [__init__]: through any stream
    of lines every clip is decoded at 48000 Hz. *)
Theorem sample_rate_is_fixed (stdin : list string) :
  sample_rate (fst (serve new_analyzer stdin)) = 48000%Z.
Proof. now rewrite serve_sample_rate. Qed.

(** X18.  Feature extraction does not depend on the configuration: after
    any stream of lines, [init] lines included, a clip yields the features
    it yields on the analyzer the stream started from. *)
Theorem features_ignore_the_configuration (analyzer : AudioEmotionAnalyzer)
  (stdin : list string) (audio_path : json) :
  extract_features (fst (serve analyzer stdin)) audio_path
  = extract_features analyzer audio_path.
Proof. unfold extract_features. now rewrite serve_sample_rate. Qed.

Lemma create_dummy_model_model (self : AudioEmotionAnalyzer) :
  (snd (create_dummy_model self) = Ok tt ->
   exists m, model (fst (create_dummy_model self)) = Some m) /\
  (model (fst (create_dummy_model self)) = model self \/
   exists m, model (fst (create_dummy_model self)) = Some m).
Proof.
  unfold create_dummy_model.
  destruct (len (emotion_labels self)) as [outputs|msg]; [|cbn; split; [discriminate|now left]].
  destruct (Sequential _) as [m|msg]; cbn; [|split; [discriminate|now left]].
  split; eauto.
Qed.

Lemma load_model_model (self : AudioEmotionAnalyzer) :
  (snd (load_model self) = Ok tt -> exists m, model (fst (load_model self)) = Some m) /\
  (model (fst (load_model self)) = model self \/
   exists m, model (fst (load_model self)) = Some m).
Proof.
  unfold load_model.
  destruct (model_path self); try (cbn; split; [discriminate|now left]).
  destruct (path_exists _) as [[|]|msg]; try (cbn; split; [discriminate|now left]).
  - destruct (load_model_file _) as [m|msg]; [cbn; split; eauto|].
    apply create_dummy_model_model.
  - apply create_dummy_model_model.
Qed.

Lemma initialize_model (analyzer : AudioEmotionAnalyzer) (config : json) :
  (snd (initialize analyzer config) = Ok tt ->
   exists m, model (fst (initialize analyzer config)) = Some m) /\
  (model (fst (initialize analyzer config)) = model analyzer \/
   exists m, model (fst (initialize analyzer config)) = Some m).
Proof.
  destruct config; try (cbn; split; [discriminate|now left]).
  rewrite initialize_object.
  destruct (load_model_model
              (configure analyzer
                 (setting members "modelPath" default_model_path)
                 (setting members "modelType" default_model_type)
                 (setting members "emotionLabels" default_emotion_labels)))
    as [Hok Hkept].
  split; [exact Hok|exact Hkept].
Qed.

(** X7.  The acknowledgement [{"status": "initialized"}] is only printed
    with a model in place, and a model once in place is never taken away:
    later lines, failed [init] lines included, can only replace it. *)
Theorem model_stays_in_place (analyzer : AudioEmotionAnalyzer) (line : string) :
  (snd (step analyzer line) = Initialized ->
   exists m, model (fst (step analyzer line)) = Some m) /\
  (forall m, model analyzer = Some m ->
   forall stdin, exists m', model (fst (serve analyzer stdin)) = Some m').
Proof.
  split.
  - destruct (step_cases analyzer line) as [[_ Hno]|(config & -> & Hok)].
    + intros H. now destruct Hno.
    + intros H. now apply initialize_model, Hok.
  - intros m Hm stdin. revert analyzer m Hm.
    induction stdin as [|l rest IH]; intros analyzer m Hm.
    + exists m. exact Hm.
    + rewrite serve_cons. cbn [fst].
      assert (Hstep : exists m', model (fst (step analyzer l)) = Some m').
      { destruct (step_cases analyzer l) as [[-> _]|(config & -> & _)]; [eauto|].
        destruct (initialize_model analyzer config) as [_ [->|H]]; eauto. }
      destruct Hstep as [m' Hm']. now apply (IH _ m').
Qed.

End ProtocolEdges.

(** ** Further properties of the model lifecycle *)

Section LifecycleEdges.

Context {R : Runtime}.




End LifecycleEdges.

(** ** Further properties of prediction and result assembly *)

Section LabelLoops.

Lemma zero_scores_hashable (labels : list json) :
  Forall (fun l => hashable l = true) labels ->
  forall scores, exists scores', zero_scores labels scores = Ok scores'.
Proof.
  induction 1 as [|l labels Hl _ IH]; intros scores; cbn.
  - eauto.
  - unfold setitem. rewrite Hl. cbn. apply IH.
Qed.

Lemma zero_scores_unhashable (before after : list json) (bad : json) :
  Forall (fun l => hashable l = true) before ->
  hashable bad = false ->
  forall scores,
    zero_scores (before ++ bad :: after) scores
    = Raise ("unhashable type: " ++ quoted (type_name bad))%string.
Proof.
  intros Hbefore Hbad. induction Hbefore as [|l before Hl _ IH]; intros scores; cbn.
  - unfold setitem. now rewrite Hbad.
  - unfold setitem. rewrite Hl. cbn. apply IH.
Qed.

Lemma fill_scores_unhashable (probabilities : list float) (before after : list json)
  (bad : json) :
  hashable bad = false ->
  forall i scores, raised (fill_scores probabilities i (before ++ bad :: after) scores).
Proof.
  intros Hbad. induction before as [|l before IH]; intros i scores; cbn.
  - destruct (Np.item probabilities i) as [p|msg]; cbn; [|now eexists].
    unfold setitem. rewrite Hbad. cbn. now eexists.
  - destruct (Np.item probabilities i) as [p|msg]; cbn; [|now eexists].
    destruct (setitem scores l p) as [scores'|msg]; cbn; [apply IH|now eexists].
Qed.



Lemma fill_scores_lookup_other (probabilities : list float) (labels : list string)
  (l : string) :
  ~ In l labels ->
  forall i scores scores',
    fill_scores probabilities i (map JStr labels) scores = Ok scores' ->
    lookup (JStr l) scores' = lookup (JStr l) scores.
Proof.
  induction labels as [|l' labels IH]; intros Hno i scores scores' H; cbn in *.
  - now injection H as <-.
  - destruct (Np.item probabilities i) as [p|]; [|discriminate]. cbn in H.
    rewrite (IH (fun Hin => Hno (or_intror Hin)) _ _ _ H).
    apply update_lookup_other. intros [= ->]. tauto.
Qed.

(** A label's entry holds the probability at the label's last position. *)
Lemma fill_scores_lookup_last (probabilities : list float) (labels : list string) :
  forall i scores scores' j l,
    fill_scores probabilities i (map JStr labels) scores = Ok scores' ->
    nth_error labels j = Some l ->
    (forall j', j < j' -> nth_error labels j' <> Some l) ->
    lookup (JStr l) scores' = nth_error probabilities (i + j).
Proof.
  induction labels as [|l' labels IH]; intros i scores scores' j l H Hj Hlast.
  - now destruct j.
  - cbn in H. unfold Np.item in H.
    destruct (nth_error probabilities i) as [p|] eqn:Hp; [|discriminate]. cbn in H.
    destruct j as [|j]; cbn in Hj.
    + injection Hj as ->. rewrite Nat.add_0_r, Hp.
      rewrite (fill_scores_lookup_other probabilities labels l) with (2 := H).
      * apply update_lookup_same.
      * intros Hin. apply In_nth_error in Hin as [n Hn].
        apply (Hlast (S n)); [lia|exact Hn].
    + rewrite Nat.add_succ_r. apply (IH (S i) _ _ j l H Hj).
      intros j' Hlt. apply (Hlast (S j')). lia.
Qed.

Lemma fill_scores_keys (probabilities : list float) (labels : list string) :
  forall i scores scores',
    fill_scores probabilities i (map JStr labels) scores = Ok scores' ->
    (NoDup (map fst scores) -> NoDup (map fst scores')) /\
    (forall k, In k (map fst scores) -> In k (map fst scores')) /\
    (forall l, In l labels -> In (JStr l) (map fst scores')).
Proof.
  induction labels as [|l labels IH]; intros i scores scores' H; cbn in H.
  - injection H as <-. repeat split; trivial. contradiction.
  - destruct (Np.item probabilities i) as [p|]; [|discriminate]. cbn in H.
    destruct (IH _ _ _ H) as (Hnodup & Hkeep & Hin).
    split; [|split].
    + intros Hd. now apply Hnodup, update_NoDup.
    + intros k Hk. apply Hkeep, update_keys. now left.
    + intros l' [->|Hl']; [|now apply Hin].
      apply Hkeep, update_keys. now right.
Qed.

End LabelLoops.

Section PredictionEdges.

Context {R : Runtime}.



Lemma predict_emotion_hashable (self : AudioEmotionAnalyzer) (features : Features.t)
  (labels : list json) :
  iter (emotion_labels self) = Ok labels ->
  Forall (fun l => hashable l = true) labels ->
  exists r, predict_emotion self features = Ok r.
Proof.
  intros Hiter Hhash. unfold predict_emotion.
  destruct (predict_try self features) as [r|msg]; [eauto|].
  unfold predict_fallback. rewrite Hiter. cbn [bind].
  destruct (zero_scores_hashable labels Hhash []) as [scores ->]. cbn. eauto.
Qed.

(** Without the streams: when the label sequence can be iterated and
    every label is hashable, [analyze_audio] yields a full result; for an
    unreadable clip it reports energy 0.0, thirteen zero MFCCs and
    [voiceActivity] false. *)
Lemma hashable_labels_never_degrade (self : AudioEmotionAnalyzer)
  (audio_path session_id timestamp : json) (labels : list json) :
  iter (emotion_labels self) = Ok labels ->
  Forall (fun l => hashable l = true) labels ->
  exists r,
    analyze_audio self audio_path session_id timestamp = Analysis.Full r /\
    (raised (librosa_measure (sample_rate self) audio_path) ->
     Analysis.energy (Analysis.features r) = 0%float /\
     Analysis.mfcc (Analysis.features r) = repeat 0%float 13 /\
     Analysis.voiceActivity r = false).
Proof.
  intros Hiter Hhash. unfold analyze_audio.
  destruct (predict_emotion_hashable self (extract_features self audio_path) labels
              Hiter Hhash) as [p ->].
  eexists. split; [reflexivity|].
  intros [msg Hmsg]. unfold extract_features. rewrite Hmsg. cbn. repeat split.
Qed.

Lemma predict_try_not_iterable (self : AudioEmotionAnalyzer) (features : Features.t)
  (msg : string) :
  iter (emotion_labels self) = Raise msg -> raised (predict_try self features).
Proof.
  intros Hiter. unfold predict_try.
  destruct (model self) as [m|]; [|now eexists].
  destruct (model_predict m (Features.features features)) as [p|e]; [|now eexists].
  cbn [bind]. rewrite Hiter. now eexists.
Qed.

(** Without the streams: labels that cannot be iterated make both blocks
    of [predict_emotion] raise, and [analyze_audio] yields the degraded
    result whose error is ['<type>' object is not iterable]. *)
Lemma non_iterable_labels_degrade (self : AudioEmotionAnalyzer)
  (audio_path session_id timestamp : json) (msg : string) :
  iter (emotion_labels self) = Raise msg ->
  analyze_audio self audio_path session_id timestamp
  = Analysis.Degraded session_id timestamp msg /\
  msg = (quoted (type_name (emotion_labels self)) ++ " object is not iterable")%string.
Proof.
  intros Hiter. split.
  - unfold analyze_audio, predict_emotion.
    destruct (predict_try_not_iterable self (extract_features self audio_path) msg Hiter)
      as [e ->].
    unfold predict_fallback. now rewrite Hiter.
  - destruct (emotion_labels self); cbn [iter] in Hiter; try discriminate;
      now injection Hiter as <-.
Qed.

(** Without the streams: a label list that holds a list or an object makes
    [analyze_audio] yield the degraded result whose error names the type of
    the first such label. *)
Lemma unhashable_label_degrades (self : AudioEmotionAnalyzer)
  (audio_path session_id timestamp : json) (before after : list json) (bad : json) :
  emotion_labels self = JArr (before ++ bad :: after) ->
  Forall (fun l => hashable l = true) before ->
  hashable bad = false ->
  analyze_audio self audio_path session_id timestamp
  = Analysis.Degraded session_id timestamp
      ("unhashable type: " ++ quoted (type_name bad))%string.
Proof.
  intros Hlabels Hbefore Hbad. unfold analyze_audio, predict_emotion.
  assert (Htry : raised (predict_try self (extract_features self audio_path))).
  { unfold predict_try.
    destruct (model self) as [m|]; [|now eexists].
    destruct (model_predict m _) as [p|e]; [|now eexists].
    cbn [bind]. rewrite Hlabels. cbn [iter bind].
    destruct (fill_scores_unhashable p before after bad Hbad 0 []) as [e ->].
    now eexists. }
  destruct Htry as [e ->].
  unfold predict_fallback. rewrite Hlabels. cbn [iter bind].
  now rewrite (zero_scores_unhashable before after bad Hbefore Hbad).
Qed.

(** X15.  Labels configured as one JSON string are taken character by
    character: predictions are those of the analyzer whose labels are the
    list of the string's characters. *)
Theorem string_labels_are_characters (self : AudioEmotionAnalyzer) (features : Features.t)
  (s : string) :
  emotion_labels self = JStr s ->
  predict_emotion self features
  = predict_emotion
      (configure self (model_path self) (model_type self) (JArr (map JStr (chars s))))
      features.
Proof.
  intros Hlabels. unfold predict_emotion, predict_fallback, predict_try.
  cbn [model emotion_labels configure]. rewrite Hlabels. cbn [iter index].
  destruct (model self) as [m|]; [|reflexivity].
  destruct (model_predict m (Features.features features)) as [p|e]; [|reflexivity].
  cbn [bind].
  destruct (fill_scores p 0 (map JStr (chars s)) []) as [scores|e]; [|reflexivity].
  cbn [bind].
  destruct (Np.argmax p) as [idx|e]; [|reflexivity].
  cbn [bind]. rewrite nth_error_map.
  destruct (nth_error (chars s) idx) as [c|]; reflexivity.
Qed.

(** X16.  With string labels that repeat, a result of the [try] block
    keeps one entry per distinct label, and it holds the probability at the
    label's last position in the list. *)
Theorem duplicate_label_last_wins (self : AudioEmotionAnalyzer) (features : Features.t)
  (labels : list string) (r : Prediction.t) :
  emotion_labels self = JArr (map JStr labels) ->
  predict_try self features = Ok r ->
  exists m probabilities,
    model self = Some m /\
    model_predict m (Features.features features) = Ok probabilities /\
    forall j l,
      nth_error labels j = Some l ->
      entries (JStr l) (Prediction.scores r) = 1 /\
      ((forall j', j < j' -> nth_error labels j' <> Some l) ->
       lookup (JStr l) (Prediction.scores r) = nth_error probabilities j).
Proof.
  intros Hlabels Htry.
  destruct (predict_try_ok self features labels Hlabels r Htry)
    as (m & p & idx & l0 & Hm & Hp & Hfill & _).
  exists m, p. split; [exact Hm|]. split; [exact Hp|].
  intros j l Hj. split.
  - destruct (fill_scores_keys p labels 0 [] _ Hfill) as (Hnodup & _ & Hin).
    apply entries_NoDup; [apply Hnodup; constructor|].
    eapply Hin, nth_error_In, Hj.
  - intros Hlast. apply (fill_scores_lookup_last p labels 0 [] _ j l Hfill Hj Hlast).
Qed.



(** X20.  With string labels the emotion of a result is one of the
    configured labels when the [try] block ran to its end, and ["neutral"]
    otherwise, configured or not. *)
Theorem emotion_is_label_or_neutral (self : AudioEmotionAnalyzer) (features : Features.t)
  (labels : list string) (r : Prediction.t) :
  emotion_labels self = JArr (map JStr labels) ->
  predict_emotion self features = Ok r ->
  (predict_try self features = Ok r /\
   exists l, In l labels /\ Prediction.emotion r = JStr l) \/
  (raised (predict_try self features) /\
   Prediction.emotion r = JStr "neutral" /\ Prediction.confidence r = 1%float).
Proof.
  intros Hlabels. unfold predict_emotion.
  destruct (predict_try self features) as [r'|msg] eqn:Htry.
  - intros [= <-]. left. split; [reflexivity|].
    destruct (predict_try_ok self features labels Hlabels r' Htry)
      as (_ & _ & idx & l & _ & _ & _ & _ & Hl & Hemotion & _).
    exists l. split; [eapply nth_error_In, Hl|exact Hemotion].
  - rewrite (predict_fallback_str self labels Hlabels). intros [= <-].
    right. split; [now eexists|]. now split.
Qed.




End PredictionEdges.

(** ** The further properties in the sessions of [Cases] *)

(** X1 on the line whose action is dance. *)
Lemma unknown_action_response_witness :
  let R := Demo.runtime Cases.plain in
  parses_to "dance" [("action", JStr "dance")] /\
  step new_analyzer "dance" = (new_analyzer, Error "Unknown action: dance").
Proof.
  cbv zeta. split; [reflexivity|].
  destruct (unknown_action_response (R := Demo.runtime Cases.plain) new_analyzer "dance"
              [("action", JStr "dance")] eq_refl) as [H _].
  apply (H "dance" eq_refl); discriminate.
Defined.

(** X2 on an [analyze] line without its [sessionId]. *)
Lemma missing_field_response_witness :
  let R := Demo.runtime Cases.plain in
  parses_to "analyze without sessionId"
    [("action", JStr "analyze"); ("audioPath", JStr "quiet.wav");
     ("timestamp", JInt 1700000000000)] /\
  step new_analyzer "analyze without sessionId" = (new_analyzer, Error "'sessionId'").
Proof.
  cbv zeta. split; [reflexivity|].
  destruct (missing_field_response (R := Demo.runtime Cases.plain) new_analyzer
              "analyze without sessionId"
              [("action", JStr "analyze"); ("audioPath", JStr "quiet.wav");
               ("timestamp", JInt 1700000000000)] eq_refl) as [_ H].
  destruct (H eq_refl) as (_ & Hsid & _).
  apply Hsid; [discriminate|reflexivity].
Defined.

(** X3 on a line that holds a JSON list. *)
Lemma not_an_object_response_witness :
  let R := Demo.runtime Cases.plain in
  json_loads (strip "[1]") = Ok (JArr [JInt 1]) /\
  step new_analyzer "[1]" = (new_analyzer, Error "'list' object has no attribute 'get'").
Proof.
  cbv zeta. split; [reflexivity|].
  destruct (not_an_object_response (R := Demo.runtime Cases.plain) new_analyzer "[1]")
    as [_ H].
  apply (H (JArr [JInt 1]) eq_refl). discriminate.
Defined.

(** X7: the acknowledged [init {}] leaves the fallback network in place. *)
Lemma model_stays_in_place_witness :
  let R := Demo.runtime Cases.plain in
  snd (step new_analyzer "init {}") = Initialized /\
  exists m, model (fst (step new_analyzer "init {}")) = Some m.
Proof.
  cbv zeta. split; [reflexivity|].
  apply (model_stays_in_place (R := Demo.runtime Cases.plain) new_analyzer "init {}").
  reflexivity.
Defined.




(** X15 after an [init] whose labels are the string ab. *)
Lemma string_labels_are_characters_witness :
  let R := Demo.runtime Cases.plain in
  let self := fst (step new_analyzer "init labels ab") in
  emotion_labels self = JStr "ab" /\
  exists r,
    predict_emotion self zero_features = Ok r /\
    Prediction.emotion r = JStr "a" /\
    map fst (Prediction.scores r) = [JStr "a"; JStr "b"].
Proof.
  cbv zeta.
  set (self := fst (step (R := Demo.runtime Cases.plain) new_analyzer "init labels ab")).
  split; [reflexivity|].
  rewrite (string_labels_are_characters (R := Demo.runtime Cases.plain)
             self zero_features "ab" eq_refl).
  eexists. split; [reflexivity|]. split; reflexivity.
Defined.

(** X16 with the label a twice and a loaded model that returns 0.9 and
    0.1: the one entry holds 0.1, the confidence is 0.9. *)
Lemma duplicate_label_last_wins_witness :
  let R := Demo.runtime (Cases.loaded [0.9; 0.1]%float) in
  let self := fst (step new_analyzer "init labels a/a") in
  emotion_labels self = JArr (map JStr ["a"; "a"]) /\
  exists r,
    predict_try self zero_features = Ok r /\
    Prediction.confidence r = 0.9%float /\
    lookup (JStr "a") (Prediction.scores r) = Some 0.1%float /\
    entries (JStr "a") (Prediction.scores r) = 1.
Proof.
  cbv zeta.
  set (self := fst (step (R := Demo.runtime (Cases.loaded [0.9; 0.1]%float)) new_analyzer
                      "init labels a/a")).
  split; [reflexivity|].
  eexists. split; [reflexivity|]. split; [reflexivity|].
  destruct (duplicate_label_last_wins (R := Demo.runtime (Cases.loaded [0.9; 0.1]%float))
              self zero_features ["a"; "a"] _ eq_refl eq_refl)
    as (m & p & Hm & Hp & Hlast).
  cbv in Hm. injection Hm as <-. cbv in Hp. injection Hp as <-.
  destruct (Hlast 1 "a" eq_refl) as [Hone Hlookup].
  split; [|exact Hone].
  apply Hlookup. intros [|[|[|j']]] Hlt; cbn; try discriminate; lia.
Defined.


(** X20 on the fallback network after [init {}]: the emotion is the first
    label. *)
Lemma emotion_is_label_or_neutral_witness :
  let R := Demo.runtime Cases.plain in
  let self := fst (step new_analyzer "init {}") in
  exists r,
    predict_emotion self zero_features = Ok r /\
    predict_try self zero_features = Ok r /\
    exists l,
      In l ["neutral"; "calm"; "happy"; "sad"; "angry"; "fearful"; "disgust"; "surprised"] /\
      Prediction.emotion r = JStr l.
Proof.
  cbv zeta.
  set (self := fst (step (R := Demo.runtime Cases.plain) new_analyzer "init {}")).
  eexists. split; [reflexivity|].
  destruct (emotion_is_label_or_neutral (R := Demo.runtime Cases.plain) self zero_features
              ["neutral"; "calm"; "happy"; "sad"; "angry"; "fearful"; "disgust"; "surprised"]
              _ eq_refl eq_refl) as [[Htry Hlabel]|[[msg Hmsg] _]].
  - split; [exact Htry|exact Hlabel].
  - discriminate Hmsg.
Defined.


(** ** The process layer *)

Section Bridge.

Context {R : Runtime} {D : Decoder}.

Lemma after_load_harmless (audio_path : json) (s : streams) :
  harmless audio_path -> after_load audio_path s = s.
Proof.
  intros H. unfold after_load. rewrite !H. cbn. rewrite !andb_true_r. now destruct s.
Qed.

Lemma after_load_closed_stdout (audio_path : json) (s : streams) :
  stdout_open s = false -> stdout_open (after_load audio_path s) = false.
Proof. intros H. cbn. now rewrite H. Qed.

(** What [extract_features] does with the streams: the value is the one
    of the first layer unless the measurements raise with standard error
    closed, when the [print] of the handler raises in turn. *)
Lemma extract_features_io_eq (self : AudioEmotionAnalyzer) (audio_path : json) (s : streams) :
  extract_features_io self audio_path s
  = (after_load audio_path s,
     match librosa_measure (sample_rate self) audio_path with
     | Ok _ => Ok (extract_features self audio_path)
     | Raise _ =>
         if stderr_open (after_load audio_path s)
         then Ok (extract_features self audio_path)
         else Raise bad_descriptor
     end).
Proof.
  unfold extract_features_io, extract_features, print_stderr.
  destruct (librosa_measure (sample_rate self) audio_path) as [m|msg]; [reflexivity|].
  now destruct (stderr_open (after_load audio_path s)).
Qed.

Lemma extract_features_io_open (self : AudioEmotionAnalyzer) (audio_path : json) (s : streams) :
  stderr_open (after_load audio_path s) = true ->
  extract_features_io self audio_path s
  = (after_load audio_path s, Ok (extract_features self audio_path)).
Proof.
  intros Hopen. rewrite extract_features_io_eq, Hopen.
  now destruct (librosa_measure (sample_rate self) audio_path).
Qed.

Lemma predict_emotion_io_open (self : AudioEmotionAnalyzer) (features : Features.t)
  (s : streams) :
  stderr_open s = true -> predict_emotion_io self features s = predict_emotion self features.
Proof.
  intros Hopen. unfold predict_emotion_io, predict_emotion, print_stderr. rewrite Hopen.
  now destruct (predict_try self features).
Qed.

Lemma analyze_audio_io_open (self : AudioEmotionAnalyzer)
  (audio_path session_id timestamp : json) (s : streams) :
  stderr_open (after_load audio_path s) = true ->
  analyze_audio_io self audio_path session_id timestamp s
  = (after_load audio_path s, Ok (analyze_audio self audio_path session_id timestamp)).
Proof.
  intros Hopen. unfold analyze_audio_io, analyze_audio.
  rewrite (extract_features_io_open self audio_path s Hopen). cbn [bind].
  rewrite (predict_emotion_io_open self _ _ Hopen).
  destruct (predict_emotion self (extract_features self audio_path)) as [r|msg]; cbn [bind].
  - reflexivity.
  - unfold print_stderr. now rewrite Hopen.
Qed.

Lemma create_dummy_model_io_open (self : AudioEmotionAnalyzer) (s : streams) :
  stderr_open s = true -> create_dummy_model_io self s = create_dummy_model self.
Proof.
  intros Hopen. unfold create_dummy_model_io, create_dummy_model, print_stderr.
  rewrite Hopen.
  destruct (len (emotion_labels self)) as [outputs|msg]; [|reflexivity].
  destruct (Sequential _) as [m|msg]; [|reflexivity].
  now destruct (compile m) as [[]|msg].
Qed.

Lemma load_model_io_open (self : AudioEmotionAnalyzer) (s : streams) :
  stderr_open s = true -> load_model_io self s = load_model self.
Proof.
  intros Hopen. unfold load_model_io, load_model, print_stderr. rewrite Hopen.
  destruct (model_path self); try reflexivity.
  destruct (path_exists _) as [[|]|msg]; try reflexivity.
  - destruct (load_model_file _) as [m|msg]; [reflexivity|].
    now apply create_dummy_model_io_open.
  - now apply create_dummy_model_io_open.
Qed.

Lemma initialize_io_open (self : AudioEmotionAnalyzer) (config : json) (s : streams) :
  stderr_open s = true -> initialize_io self config s = initialize self config.
Proof.
  intros Hopen. unfold initialize_io, initialize.
  destruct (get config "modelPath" default_model_path); [|reflexivity].
  destruct (get config "modelType" default_model_type); [|reflexivity].
  destruct (get config "emotionLabels" default_emotion_labels); [|reflexivity].
  now apply load_model_io_open.
Qed.

(** The streams a line leaves behind are those it found, or those after
    decoding one path. *)
Lemma handle_io_streams (analyzer : AudioEmotionAnalyzer) (s : streams) (line : string) :
  snd (fst (handle_io analyzer s line)) = s \/
  exists audio_path, snd (fst (handle_io analyzer s line)) = after_load audio_path s.
Proof.
  unfold handle_io.
  destruct (json_loads (strip line)) as [v|msg]; [|now left].
  destruct v as [| | | | | |request]; try now left.
  destruct (str_eq _ "init").
  - destruct (getitem request "config") as [config|msg]; [|now left].
    destruct (initialize_io analyzer config s) as [analyzer' [u|msg]]; now left.
  - destruct (str_eq _ "analyze"); [|now left].
    destruct (getitem request "audioPath") as [audio_path|msg]; [|now left].
    destruct (getitem request "sessionId") as [session_id|msg]; [|now left].
    destruct (getitem request "timestamp") as [timestamp|msg]; [|now left].
    right. exists audio_path. unfold analyze_audio_io.
    rewrite extract_features_io_eq.
    destruct (_ <- _ ;; _); reflexivity.
Qed.

Lemma handle_io_open (analyzer : AudioEmotionAnalyzer) (s : streams) (line : string) :
  stderr_open s = true ->
  tame line ->
  handle_io analyzer s line = (fst (handle analyzer line), s, snd (handle analyzer line)).
Proof.
  intros Hopen Htame. unfold handle_io, handle.
  destruct (json_loads (strip line)) as [v|msg] eqn:Hparse; [|reflexivity].
  destruct v as [| | | | | |request]; try reflexivity.
  destruct (assoc "action" request) as [action|] eqn:Haction; cbv zeta.
  - destruct (str_eq action "init").
    + destruct (getitem request "config") as [config|msg]; [|reflexivity].
      rewrite (initialize_io_open analyzer config s Hopen).
      now destruct (initialize analyzer config) as [analyzer' [u|msg]].
    + destruct (str_eq action "analyze") eqn:Hanalyze; [|reflexivity].
      unfold getitem.
      destruct (assoc "audioPath" request) as [audio_path|] eqn:Hpath; [|reflexivity].
      destruct (assoc "sessionId" request) as [session_id|] eqn:Hsid; [|reflexivity].
      destruct (assoc "timestamp" request) as [timestamp|] eqn:Hts; [|reflexivity].
      assert (Hharmless : harmless audio_path).
      { apply (Htame audio_path session_id timestamp). exists request.
        repeat split; trivial.
        destruct action; cbn in Hanalyze; try discriminate.
        apply String.eqb_eq in Hanalyze. now subst. }
      rewrite analyze_audio_io_open;
        rewrite (after_load_harmless audio_path s Hharmless); trivial.
  - cbn. reflexivity.
Qed.

Lemma step_io_open (analyzer : AudioEmotionAnalyzer) (s : streams) (line : string) :
  stdout_open s = true ->
  stderr_open s = true ->
  tame line ->
  step_io analyzer s line = (fst (step analyzer line), s, Some (snd (step analyzer line))).
Proof.
  intros Hout Herr Htame. unfold step_io, step, print_stdout.
  rewrite (handle_io_open analyzer s line Herr Htame), Hout.
  now destruct (handle analyzer line) as [analyzer' [r|msg]].
Qed.

Lemma serve_io_open (stdin : list string) :
  Forall tame stdin ->
  forall analyzer s,
    stdin_open s = true -> stdout_open s = true -> stderr_open s = true ->
    serve_io analyzer s (map Ok stdin) = snd (serve analyzer stdin).
Proof.
  induction 1 as [|line rest Hline _ IH]; intros analyzer s Hin Hout Herr.
  - reflexivity.
  - cbn [map serve_io]. rewrite Hin, (step_io_open analyzer s line Hout Herr Hline).
    rewrite serve_cons. cbn [snd]. f_equal. now apply IH.
Qed.

Lemma main_io_open (stdin : list string) :
  Forall tame stdin -> main_io (map Ok stdin) = main stdin.
Proof.
  intros Htame. unfold main_io, main. now rewrite serve_io_open.
Qed.

(** Past a line that cannot be decoded nothing is read. *)
Lemma serve_io_undecodable (before : list string) (msg : string)
  (after : list (result string)) :
  forall analyzer s,
    serve_io analyzer s (map Ok before ++ Raise msg :: after)
    = serve_io analyzer s (map Ok before).
Proof.
  induction before as [|line rest IH]; intros analyzer s; cbn [map app serve_io].
  - now destruct (stdin_open s).
  - destruct (stdin_open s); [|reflexivity].
    destruct (step_io analyzer s line) as [[analyzer' s'] [r|]]; [|reflexivity].
    now rewrite IH.
Qed.

(** With standard output closed no turn of the loop gets past its
    handler. *)
Lemma step_io_closed_stdout (analyzer : AudioEmotionAnalyzer) (s : streams) (line : string) :
  stdout_open (snd (fst (handle_io analyzer s line))) = false ->
  snd (step_io analyzer s line) = None.
Proof.
  unfold step_io, print_stdout.
  destruct (handle_io analyzer s line) as [[analyzer' s'] [r|msg]]; cbn [fst snd];
    intros ->; reflexivity.
Qed.

Lemma serve_io_closed_stdout (analyzer : AudioEmotionAnalyzer) (s : streams)
  (stdin : list (result string)) :
  stdout_open s = false -> serve_io analyzer s stdin = [].
Proof.
  intros Hclosed. destruct stdin as [|[line|msg] rest]; cbn [serve_io]; try reflexivity.
  - destruct (stdin_open s); [|reflexivity].
    assert (Hnone : snd (step_io analyzer s line) = None).
    { apply step_io_closed_stdout.
      destruct (handle_io_streams analyzer s line) as [->|[audio_path ->]]; trivial.
      now apply after_load_closed_stdout. }
    destruct (step_io analyzer s line) as [[analyzer' s'] [r|]]; [discriminate|reflexivity].
  - now destruct (stdin_open s).
Qed.



(** The streams a line leaves behind are those it found, unless the line
    is a complete [analyze] command: then they are those after decoding its
    path. *)
Lemma handle_io_streams_analyze (analyzer : AudioEmotionAnalyzer) (s : streams)
  (line : string) :
  snd (fst (handle_io analyzer s line)) = s \/
  exists audio_path session_id timestamp,
    analyze_line line audio_path session_id timestamp /\
    snd (fst (handle_io analyzer s line)) = after_load audio_path s.
Proof.
  unfold handle_io.
  destruct (json_loads (strip line)) as [v|msg] eqn:Hparse; [|now left].
  destruct v as [| | | | | |request]; try now left.
  destruct (assoc "action" request) as [action|] eqn:Haction; [|now left].
  destruct (str_eq action "init").
  - destruct (getitem request "config") as [config|msg]; [|now left].
    destruct (initialize_io analyzer config s) as [analyzer' [u|msg]]; now left.
  - destruct (str_eq action "analyze") eqn:Hanalyze; [|now left].
    unfold getitem.
    destruct (assoc "audioPath" request) as [audio_path|] eqn:Hpath; [|now left].
    destruct (assoc "sessionId" request) as [session_id|] eqn:Hsid; [|now left].
    destruct (assoc "timestamp" request) as [timestamp|] eqn:Hts; [|now left].
    right. exists audio_path, session_id, timestamp. split.
    + exists request. repeat split; trivial.
      destruct action; cbn in Hanalyze; try discriminate.
      apply String.eqb_eq in Hanalyze. now subst.
    + unfold analyze_audio_io. rewrite extract_features_io_eq.
      destruct (_ <- _ ;; _); reflexivity.
Qed.

(** A line that leaves the loop its channels is answered, and leaves them
    open. *)
Lemma step_io_answers (analyzer : AudioEmotionAnalyzer) (s : streams) (line : string) :
  stdin_open s = true ->
  stdout_open s = true ->
  keeps_channel line ->
  exists analyzer' s' reply,
    step_io analyzer s line = (analyzer', s', Some reply) /\
    stdin_open s' = true /\
    stdout_open s' = true /\
    (forall msg, snd (handle_io analyzer s line) = Raise msg -> reply = Error msg).
Proof.
  intros Hin Hout Hkeeps.
  assert (Hopen : stdin_open (snd (fst (handle_io analyzer s line))) = true /\
                  stdout_open (snd (fst (handle_io analyzer s line))) = true).
  { destruct (handle_io_streams_analyze analyzer s line)
      as [->|(audio_path & session_id & timestamp & Hline & ->)]; [now split|].
    destruct (Hkeeps _ _ _ Hline) as [Hi Ho]. cbn. now rewrite Hin, Hout, Hi, Ho. }
  destruct Hopen as [Hin' Hout']. unfold step_io, print_stdout.
  destruct (handle_io analyzer s line) as [[analyzer' s'] [r|msg]]; cbn [fst snd] in *;
    rewrite Hout'.
  - exists analyzer', s', r. repeat split; trivial. discriminate.
  - exists analyzer', s', (Error msg). repeat split; trivial. congruence.
Qed.

Lemma serve_io_length (stdin : list string) :
  Forall keeps_channel stdin ->
  forall analyzer s,
    stdin_open s = true -> stdout_open s = true ->
    List.length (serve_io analyzer s (map Ok stdin)) = List.length stdin.
Proof.
  induction 1 as [|line rest Hline _ IH]; intros analyzer s Hin Hout.
  - reflexivity.
  - cbn [map serve_io List.length]. rewrite Hin.
    destruct (step_io_answers analyzer s line Hin Hout Hline)
      as (analyzer' & s' & reply & -> & Hin' & Hout' & _).
    cbn [List.length]. f_equal. now apply IH.
Qed.




End Bridge.

Section ProcessClaims.

Context {R : Runtime} {D : Decoder}.

(** C1, as the code has it.  When every line of the input can be decoded
    and none makes the decoder close standard input or standard output, the
    loop prints the readiness line and then exactly one response per line.
    Each such line, met with the two channels open, is answered and leaves
    them open; when its processing raises, the answer is the error object
    with the message; the lines after it are served from the analyzer and
    the streams it left.  When moreover no line makes the decoder close
    standard error, the responses are those of the first layer.  A line
    that cannot be decoded raises in the iteration over [sys.stdin], outside
    the [try] block: nothing after it is read.  Once standard output is
    closed, the handler's own [print] raises and the loop writes nothing
    more. *)
Theorem loop_answers_every_line (stdin : list string) :
  Forall keeps_channel stdin ->
  List.length (main_io (map Ok stdin)) = S (List.length stdin) /\
  (forall analyzer s line rest,
     stdin_open s = true ->
     stdout_open s = true ->
     keeps_channel line ->
     exists analyzer' s' reply,
       step_io analyzer s line = (analyzer', s', Some reply) /\
       stdin_open s' = true /\
       stdout_open s' = true /\
       (forall msg, snd (handle_io analyzer s line) = Raise msg -> reply = Error msg) /\
       serve_io analyzer s (Ok line :: rest) = reply :: serve_io analyzer' s' rest) /\
  (Forall tame stdin -> main_io (map Ok stdin) = main stdin) /\
  (forall analyzer s before msg after,
     serve_io analyzer s (map Ok before ++ Raise msg :: after)
     = serve_io analyzer s (map Ok before)) /\
  (forall analyzer s items, stdout_open s = false -> serve_io analyzer s items = []).
Proof.
  intros Hkeeps. split; [|split; [|split; [|split]]].
  - unfold main_io. cbn [List.length].
    now rewrite length_map, (serve_io_length stdin Hkeeps).
  - intros analyzer s line rest Hin Hout Hline.
    destruct (step_io_answers analyzer s line Hin Hout Hline)
      as (analyzer' & s' & reply & Hstep & Hin' & Hout' & Herror).
    exists analyzer', s', reply. repeat split; trivial.
    cbn [serve_io]. now rewrite Hin, Hstep.
  - apply main_io_open.
  - intros analyzer s before msg after. apply serve_io_undecodable.
  - intros analyzer s items. apply serve_io_closed_stdout.
Qed.

(** C2, as the code has it.  [extract_features] leaves the streams as the
    decoder left them.  Whenever it returns, the feature list has length
    40: the concatenation of the MFCC means, the MFCC deviations and
    centroid, zero-crossing rate, energy, padded with zeros or cut to 40 (29
    values and 11 zeros for 13 means and 13 deviations) when the
    measurements succeed, and the zero record when they raise.  It returns
    whenever the measurements succeed or standard error is open after the
    decoding; when they raise and standard error is closed, the [print] of
    the handler raises and that exception propagates. *)
Theorem extract_features_returns (self : AudioEmotionAnalyzer) (audio_path : json)
  (s : streams) :
  let s' := after_load audio_path s in
  let outcome := snd (extract_features_io self audio_path s) in
  fst (extract_features_io self audio_path s) = s' /\
  (forall r,
     outcome = Ok r ->
     List.length (Features.features r) = 40 /\
     (forall m,
        librosa_measure (sample_rate self) audio_path = Ok m ->
        let raw := mfcc_mean m ++ mfcc_std m
                   ++ [spectral_centroid m; zero_crossing_rate m; rms_energy m] in
        (List.length raw <= 40 ->
         Features.features r = raw ++ repeat 0%float (40 - List.length raw)) /\
        (40 <= List.length raw -> Features.features r = firstn 40 raw) /\
        (List.length (mfcc_mean m) = 13 -> List.length (mfcc_std m) = 13 ->
         List.length raw = 29 /\ Features.features r = raw ++ repeat 0%float 11) /\
        Features.mfcc r = mfcc_mean m /\
        Features.spectralCentroid r = spectral_centroid m /\
        Features.zeroCrossingRate r = zero_crossing_rate m /\
        Features.energy r = rms_energy m) /\
     (raised (librosa_measure (sample_rate self) audio_path) ->
      Features.features r = repeat 0%float 40 /\
      Features.mfcc r = repeat 0%float 13 /\
      Features.spectralCentroid r = 0%float /\
      Features.zeroCrossingRate r = 0%float /\
      Features.energy r = 0%float)) /\
  (stderr_open s' = true -> exists r, outcome = Ok r) /\
  (forall m, librosa_measure (sample_rate self) audio_path = Ok m ->
             exists r, outcome = Ok r) /\
  (raised (librosa_measure (sample_rate self) audio_path) ->
   stderr_open s' = false ->
   outcome = Raise "[Errno 9] Bad file descriptor").
Proof.
  cbv zeta. rewrite extract_features_io_eq. cbn [fst snd].
  split; [reflexivity|]. split; [|split; [|split]].
  - intros r Hr.
    assert (r = extract_features self audio_path) as ->.
    { destruct (librosa_measure (sample_rate self) audio_path); [congruence|].
      destruct (stderr_open (after_load audio_path s)); congruence. }
    apply (extract_features_shape self audio_path).
  - intros ->. destruct (librosa_measure (sample_rate self) audio_path); eauto.
  - intros m ->. eauto.
  - intros [msg ->] ->. reflexivity.
Qed.

(** C3, as the code has it.  When the configured labels are strings and
    the [try] block of [predict_emotion] fails, the [except] block prints
    its diagnostic and, standard error being open, answers emotion
    ["neutral"] with confidence 1.0 and a scores mapping that holds exactly
    one entry for each configured label, 0.0 for every label other than
    ["neutral"] and 1.0 for ["neutral"]; the mapping has no entry besides
    the labels and ["neutral"].  With standard error closed the diagnostic
    raises and nothing is returned. *)
Theorem predict_fallback_safe (self : AudioEmotionAnalyzer) (features : Features.t)
  (labels : list string) (s : streams) :
  emotion_labels self = JArr (map JStr labels) ->
  raised (predict_try self features) ->
  (stderr_open s = true ->
   exists r,
     predict_emotion_io self features s = Ok r /\
     Prediction.emotion r = JStr "neutral" /\
     Prediction.confidence r = 1%float /\
     (forall l, In l labels -> entries (JStr l) (Prediction.scores r) = 1) /\
     (forall l, In l labels -> l <> "neutral" ->
                lookup (JStr l) (Prediction.scores r) = Some 0%float) /\
     lookup (JStr "neutral") (Prediction.scores r) = Some 1%float /\
     entries (JStr "neutral") (Prediction.scores r) = 1 /\
     (forall k v, In (k, v) (Prediction.scores r) ->
                  k = JStr "neutral" \/ exists l, In l labels /\ k = JStr l)) /\
  (stderr_open s = false -> predict_emotion_io self features s = Raise bad_descriptor).
Proof.
  intros Hlabels Hraised. split; intros Hopen.
  - rewrite (predict_emotion_io_open self features s Hopen).
    exact (predict_fallback_scores self features labels Hlabels Hraised).
  - unfold predict_emotion_io, print_stderr. rewrite Hopen.
    now destruct Hraised as [msg ->].
Qed.



(** X12.  When the label sequence can be iterated, every label is hashable
    (no list, no object) and standard error is open once the clip has been
    decoded, [analyze_audio] returns a full result; an unreadable clip does
    not change that: the result reports energy 0.0 and thirteen zero MFCCs,
    and has [voiceActivity] false. *)
Theorem hashable_labels_give_full_result (self : AudioEmotionAnalyzer)
  (audio_path session_id timestamp : json) (s : streams) (labels : list json) :
  iter (emotion_labels self) = Ok labels ->
  Forall (fun l => hashable l = true) labels ->
  stderr_open (after_load audio_path s) = true ->
  exists r,
    analyze_audio_io self audio_path session_id timestamp s
    = (after_load audio_path s, Ok (Analysis.Full r)) /\
    (raised (librosa_measure (sample_rate self) audio_path) ->
     Analysis.energy (Analysis.features r) = 0%float /\
     Analysis.mfcc (Analysis.features r) = repeat 0%float 13 /\
     Analysis.voiceActivity r = false).
Proof.
  intros Hiter Hhash Herr.
  rewrite (analyze_audio_io_open self _ _ _ s Herr).
  destruct (hashable_labels_never_degrade self audio_path session_id timestamp labels
              Hiter Hhash) as (r & -> & Hzero).
  exists r. now split.
Qed.

(** X13.  When the configured labels cannot be iterated (a number, a
    boolean, [null]) and standard error is open once the clip has been
    decoded, both blocks of [predict_emotion] raise and [analyze_audio]
    returns the degraded result whose error is
    ['<type>' object is not iterable]. *)
Theorem non_iterable_labels_give_degraded (self : AudioEmotionAnalyzer)
  (audio_path session_id timestamp : json) (s : streams) (msg : string) :
  iter (emotion_labels self) = Raise msg ->
  stderr_open (after_load audio_path s) = true ->
  analyze_audio_io self audio_path session_id timestamp s
  = (after_load audio_path s, Ok (Analysis.Degraded session_id timestamp msg)) /\
  msg = (quoted (type_name (emotion_labels self)) ++ " object is not iterable")%string.
Proof.
  intros Hiter Herr.
  rewrite (analyze_audio_io_open self _ _ _ s Herr).
  destruct (non_iterable_labels_degrade self audio_path session_id timestamp msg Hiter)
    as [-> Hmsg].
  now split.
Qed.

(** X14.  When the label list holds a list or an object and standard
    error is open once the clip has been decoded, [analyze_audio] returns
    the degraded result whose error names the type of the first such
    label. *)
Theorem unhashable_label_gives_degraded (self : AudioEmotionAnalyzer)
  (audio_path session_id timestamp : json) (s : streams)
  (before after : list json) (bad : json) :
  emotion_labels self = JArr (before ++ bad :: after) ->
  Forall (fun l => hashable l = true) before ->
  hashable bad = false ->
  stderr_open (after_load audio_path s) = true ->
  analyze_audio_io self audio_path session_id timestamp s
  = (after_load audio_path s,
     Ok (Analysis.Degraded session_id timestamp
           ("unhashable type: " ++ quoted (type_name bad))%string)).
Proof.
  intros Hlabels Hbefore Hbad Herr.
  rewrite (analyze_audio_io_open self _ _ _ s Herr).
  now rewrite (unhashable_label_degrades self audio_path session_id timestamp
                 before after bad Hlabels Hbefore Hbad).
Qed.


End ProcessClaims.

(** ** The process layer in the sessions of [Wire] *)


Ltac keeps_channel_line :=
  let Hparse := fresh "Hparse" in
  let Haction := fresh "Haction" in
  let Hpath := fresh "Hpath" in
  intros ? ? ? (? & Hparse & Haction & Hpath & _);
  cbv in Hparse; try discriminate Hparse;
  injection Hparse as <-; cbv in Haction; try discriminate Haction;
  cbv in Hpath; injection Hpath as <-;
  split; reflexivity.

(** C1 on a stream whose first line is not JSON and whose second closes
    standard error: three lines, three responses. *)
Lemma loop_answers_every_line_witness :
  let R := Demo.runtime Wire.plain in
  let D := Wire.decoder in
  Forall keeps_channel ["not valid json"; "analyze 2"; "analyze quiet"] /\
  List.length (main_io [Ok "not valid json"; Ok "analyze 2"; Ok "analyze quiet"]) = 4 /\
  exists r,
    main_io [Ok "not valid json"; Ok "analyze 2"; Ok "analyze quiet"]
    = [Ready;
       Line (Error "Expecting value: line 1 column 1 (char 0)");
       Line (Error "[Errno 9] Bad file descriptor");
       Line r].
Proof.
  cbv zeta.
  assert (Hkeeps : Forall (keeps_channel (R := Demo.runtime Wire.plain) (D := Wire.decoder))
                     ["not valid json"; "analyze 2"; "analyze quiet"]).
  { apply Forall_cons; [|apply Forall_cons; [|apply Forall_cons; [|apply Forall_nil]]];
      keeps_channel_line. }
  split; [exact Hkeeps|]. split.
  - exact (proj1 (loop_answers_every_line (R := Demo.runtime Wire.plain)
                    (D := Wire.decoder) _ Hkeeps)).
  - eexists. reflexivity.
Defined.

(** C1 fails on a first line that cannot be decoded, and on a first line
    that asks for descriptor 1 to be analysed: two lines go in, and nothing
    follows the readiness line.  After a first line that asks for
    descriptor 0 the second line is never read: one response for two
    lines. *)
Lemma loop_dies_without_answer :
  let R := Demo.runtime Wire.plain in
  let D := Wire.decoder in
  main_io [Raise "'utf-8' codec can't decode byte 0xff in position 0: invalid start byte";
           Ok "dance"]
  = [Ready] /\
  main_io [Ok "analyze 1"; Ok "dance"] = [Ready] /\
  List.length (main_io [Ok "analyze 0"; Ok "dance"]) = 2.
Proof. cbv zeta. repeat split; reflexivity. Qed.

(** C2 on the quiet clip, and on a clip that is not there. *)
Lemma extract_features_returns_witness :
  let R := Demo.runtime Wire.plain in
  let D := Wire.decoder in
  (exists r,
     extract_features_io new_analyzer (JStr "quiet.wav") started = (started, Ok r) /\
     Features.features r
     = repeat 2%float 13 ++ repeat 0.5%float 13 ++ [1500; 0.05; 0.01]%float
       ++ repeat 0%float 11) /\
  (exists r,
     extract_features_io new_analyzer (JStr "missing.wav") started = (started, Ok r) /\
     Features.features r = repeat 0%float 40).
Proof.
  cbv zeta. split.
  - destruct (extract_features_returns (R := Demo.runtime Wire.plain) (D := Wire.decoder)
                new_analyzer (JStr "quiet.wav") started) as (_ & Hshape & _).
    eexists. split; [reflexivity|].
    destruct (Hshape _ eq_refl) as (_ & Hok & _).
    destruct (Hok Demo.quiet eq_refl) as (_ & _ & H29 & _).
    destruct (H29 eq_refl eq_refl) as [_ ->]. reflexivity.
  - destruct (extract_features_returns (R := Demo.runtime Wire.plain) (D := Wire.decoder)
                new_analyzer (JStr "missing.wav") started) as (_ & Hshape & _).
    eexists. split; [reflexivity|].
    destruct (Hshape _ eq_refl) as (_ & _ & Hzero).
    apply Hzero. eexists. reflexivity.
Defined.

(** C2 fails on the path 2: decoding closes standard error, the
    measurements raise, and the [print] of the handler raises in turn. *)
Lemma extract_features_raises_on_descriptor_2 :
  let R := Demo.runtime Wire.plain in
  let D := Wire.decoder in
  extract_features_io new_analyzer (JInt 2) started
  = ({| stdin_open := true; stdout_open := true; stderr_open := false |},
     Raise "[Errno 9] Bad file descriptor").
Proof. reflexivity. Qed.



(** C3 where the artefact on disk loads but rejects the input: after an
    [init] with the labels happy and sad, every prediction falls back. *)
Lemma predict_fallback_safe_witness :
  let R := Demo.runtime Demo.mismatched in
  let self := fst (step new_analyzer "init happy/sad") in
  emotion_labels self = JArr (map JStr ["happy"; "sad"]) /\
  raised (predict_try self zero_features) /\
  exists r,
    predict_emotion_io self zero_features started = Ok r /\
    Prediction.emotion r = JStr "neutral" /\
    Prediction.confidence r = 1%float /\
    lookup (JStr "happy") (Prediction.scores r) = Some 0%float /\
    lookup (JStr "sad") (Prediction.scores r) = Some 0%float /\
    lookup (JStr "neutral") (Prediction.scores r) = Some 1%float.
Proof.
  cbv zeta.
  set (self := fst (step (R := Demo.runtime Demo.mismatched) new_analyzer "init happy/sad")).
  assert (Hlabels : emotion_labels self = JArr (map JStr ["happy"; "sad"])) by reflexivity.
  assert (Hraised : raised (predict_try self zero_features)).
  { eexists. reflexivity. }
  split; [exact Hlabels|]. split; [exact Hraised|].
  destruct (proj1 (predict_fallback_safe (R := Demo.runtime Demo.mismatched)
                     self zero_features ["happy"; "sad"] started Hlabels Hraised) eq_refl)
    as (r & Hr & Hemotion & Hconf & _ & Hzero & Hone & _).
  exists r. repeat split; trivial.
  - apply Hzero; [now left|discriminate].
  - apply Hzero; [right; now left|discriminate].
Defined.

(** C3 fails on the labels calm and [[sad]]: the [init] is acknowledged,
    the [try] block raises on the second label and so does the [except]
    block, with the streams open; no result is returned. *)
Lemma fallback_raises_on_nested_label :
  let R := Demo.runtime Wire.plain in
  let self := fst (step new_analyzer "init labels nested") in
  snd (step new_analyzer "init labels nested") = Initialized /\
  emotion_labels self = JArr [JStr "calm"; JArr [JStr "sad"]] /\
  predict_try self zero_features = Raise "unhashable type: 'list'" /\
  predict_emotion_io self zero_features started = Raise "unhashable type: 'list'".
Proof. cbv zeta. repeat split; reflexivity. Qed.

(** C6 fails on the label a configured twice with a model that returns 0.9
    and 0.1: the emotion is a, the confidence 0.9, and the score of a is
    0.1. *)
Lemma confidence_differs_from_score :
  let R := Demo.runtime (Wire.loaded [0.9; 0.1]%float) in
  let self := fst (step new_analyzer "init labels a/a") in
  snd (step new_analyzer "init labels a/a") = Initialized /\
  emotion_labels self = JArr [JStr "a"; JStr "a"] /\
  predict_emotion self zero_features
  = Ok {| Prediction.emotion := JStr "a";
          Prediction.confidence := 0.9%float;
          Prediction.scores := [(JStr "a", 0.1%float)] |} /\
  lookup (JStr "a") [(JStr "a", 0.1%float)] <> Some 0.9%float.
Proof.
  cbv zeta. repeat split; try reflexivity.
  intros H.
  pose proof (f_equal (fun o => match o with
                                | Some x => (x <? 0.9)%float
                                | None => false
                                end) H) as Hcmp.
  vm_compute in Hcmp. discriminate Hcmp.
Qed.



(** X12 on a clip that is not there, after [init {}]. *)
Lemma hashable_labels_give_full_result_witness :
  let R := Demo.runtime Wire.plain in
  let D := Wire.decoder in
  let self := fst (step new_analyzer "init {}") in
  raised (librosa_measure (sample_rate self) (JStr "missing.wav")) /\
  exists r,
    analyze_audio_io self (JStr "missing.wav") (JStr "s1") (JInt 1) started
    = (started, Ok (Analysis.Full r)) /\
    Analysis.energy (Analysis.features r) = 0%float /\
    Analysis.voiceActivity r = false.
Proof.
  cbv zeta.
  set (self := fst (step (R := Demo.runtime Wire.plain) new_analyzer "init {}")).
  assert (Hraised : raised (librosa_measure (Runtime := Demo.runtime Wire.plain)
                              (sample_rate self) (JStr "missing.wav"))).
  { eexists. reflexivity. }
  split; [exact Hraised|].
  destruct (hashable_labels_give_full_result (R := Demo.runtime Wire.plain)
              (D := Wire.decoder) self (JStr "missing.wav") (JStr "s1") (JInt 1) started
              (map JStr ["neutral"; "calm"; "happy"; "sad";
                         "angry"; "fearful"; "disgust"; "surprised"]))
    as (r & Hr & Hzero).
  - reflexivity.
  - repeat constructor.
  - reflexivity.
  - exists r. split; [exact Hr|]. destruct (Hzero Hraised) as (He & _ & Hv). now split.
Defined.

(** X13 after an [init] whose labels are the number 5. *)
Lemma non_iterable_labels_give_degraded_witness :
  let R := Demo.runtime Wire.plain in
  let D := Wire.decoder in
  let self := fst (step new_analyzer "init labels 5") in
  emotion_labels self = JInt 5 /\
  analyze_audio_io self (JStr "quiet.wav") (JStr "s1") (JInt 1) started
  = (started, Ok (Analysis.Degraded (JStr "s1") (JInt 1) "'int' object is not iterable")).
Proof.
  cbv zeta. split; [reflexivity|].
  apply (non_iterable_labels_give_degraded (R := Demo.runtime Wire.plain)
           (D := Wire.decoder)); reflexivity.
Defined.

(** X14 after an acknowledged [init] whose second label is a list. *)
Lemma unhashable_label_gives_degraded_witness :
  let R := Demo.runtime Wire.plain in
  let D := Wire.decoder in
  let self := fst (step new_analyzer "init labels nested") in
  emotion_labels self = JArr ([JStr "calm"] ++ JArr [JStr "sad"] :: []) /\
  analyze_audio_io self (JStr "quiet.wav") (JStr "s1") (JInt 1) started
  = (started, Ok (Analysis.Degraded (JStr "s1") (JInt 1) "unhashable type: 'list'")).
Proof.
  cbv zeta. split; [reflexivity|].
  assert (Hbefore : Forall (fun l => hashable l = true) [JStr "calm"]).
  { repeat constructor. }
  exact (unhashable_label_gives_degraded (R := Demo.runtime Wire.plain) (D := Wire.decoder)
           (fst (step (R := Demo.runtime Wire.plain) new_analyzer "init labels nested"))
           (JStr "quiet.wav") (JStr "s1") (JInt 1) started
           [JStr "calm"] [] (JArr [JStr "sad"])
           eq_refl Hbefore eq_refl eq_refl).
Defined.

